(** * node-tcnet: the wire codec of [src/network.ts]

    A shallow embedding of the TCNet packet classes (their [read] and
    [write] methods over a Node.js [Buffer]) and the properties of the
    protocol specification that concern them.

    Conventions of the embedding:
    - a [Buffer] is the list of its bytes, each a [Z] in [0, 255];
    - a JavaScript string is the list of its UTF-16 code units;
    - a JavaScript [number] held in a packet field is an integer [Z];
    - a method that may throw returns a [result]; a method that mutates
      the buffer returns an [outcome], which keeps the buffer as it is
      when the exception leaves the method;
    - [assert] is the one imported on line 1 of the source,
      [import { assert } from "console"]: [console.assert] prints a
      diagnostic when its condition is false and returns normally. *)

From stdpp Require Import base list numbers strings.
From Stdlib Require Import HexadecimalString HexadecimalZ.

Open Scope Z_scope.

(** ** The JavaScript runtime operations the codec relies on *)

Module Js.

(** Exceptions the codec can raise: Node's [ERR_OUT_OF_RANGE] on the
    [offset] argument of a buffer accessor, the same error on the
    [value] argument of an integer write, and [new Error(msg)]. *)
Inductive error : Type :=
| RangeError (offset : Z)
| ValueRangeError (value : Z)
| Error (msg : string).

Inductive result (A : Type) : Type :=
| Ok (a : A)
| Throw (e : error).
Arguments Ok {A} a.
Arguments Throw {A} e.

Definition bind {A B} (m : result A) (k : A -> result B) : result B :=
  match m with
  | Ok a => k a
  | Throw e => Throw e
  end.

Fixpoint mapM {A B} (f : A -> result B) (l : list A) : result (list B) :=
  match l with
  | [] => Ok []
  | x :: r =>
      bind (f x) (fun y => bind (mapM f r) (fun ys => Ok (y :: ys)))
  end.

Definition is_ok {A} (m : result A) : bool :=
  match m with Ok _ => true | Throw _ => false end.

(** [console.assert(cond)]: a diagnostic on the console when [cond] is
    false; execution continues either way. *)
Definition assert (cond : bool) : result unit := Ok tt.

(** A buffer is the list of its bytes, a string that of its code units. *)
Abbreviation Buffer := (list Z) (only parsing).
Abbreviation jsstring := (list Z) (only parsing).

(** The code units of an ASCII literal. *)
Definition js (s : string) : jsstring :=
  map (fun c => Z.of_N (Ascii.N_of_ascii c)) (String.list_ascii_of_string s).

(** [Buffer.alloc(n)]: [n] zero bytes. *)
Definition alloc (n : nat) : Buffer := replicate n 0.

Definition blen (buf : Buffer) : Z := Z.of_nat (length buf).

(** [buf[i]]: [undefined] (here [None]) outside the buffer. *)
Definition byteAt (buf : Buffer) (i : Z) : option Z :=
  if 0 <=? i then buf !! Z.to_nat i else None.

(** [buf.readUInt8(offset)] *)
Definition readUInt8 (buf : Buffer) (offset : Z) : result Z :=
  match byteAt buf offset with
  | Some val => Ok val
  | None => Throw (RangeError offset)
  end.

(** [buf.readUInt16LE(offset)]: the first and last bytes are looked up,
    and a bounds error is raised when either is [undefined]. *)
Definition readUInt16LE (buf : Buffer) (offset : Z) : result Z :=
  match byteAt buf offset, byteAt buf (offset + 1) with
  | Some first, Some last => Ok (first + last * 2 ^ 8)
  | _, _ => Throw (RangeError offset)
  end.

(** [buf.readUInt32LE(offset)] *)
Definition readUInt32LE (buf : Buffer) (offset : Z) : result Z :=
  match byteAt buf offset, byteAt buf (offset + 3) with
  | Some first, Some last =>
      Ok (first
          + default 0 (byteAt buf (offset + 1)) * 2 ^ 8
          + default 0 (byteAt buf (offset + 2)) * 2 ^ 16
          + last * 2 ^ 24)
  | _, _ => Throw (RangeError offset)
  end.

(** [buf.slice(start, end)]: both indices are clamped to the buffer (a
    negative one counts from the end), and the result is empty unless
    [end > start]. It never throws. *)
Definition adjustOffset (offset len : Z) : Z :=
  if offset <? 0 then Z.max (offset + len) 0 else Z.min offset len.

Definition slice (buf : Buffer) (start end_ : Z) : Buffer :=
  let s := adjustOffset start (blen buf) in
  let e := adjustOffset end_ (blen buf) in
  if e >? s then take (Z.to_nat (e - s)) (drop (Z.to_nat s) buf) else [].

(** [buf.slice(start)]: up to the end of the buffer. *)
Definition slice_from (buf : Buffer) (start : Z) : Buffer :=
  slice buf start (blen buf).

(** [buf.toString("ascii")]: the high bit of every byte is cleared. *)
Definition toString_ascii (buf : Buffer) : jsstring :=
  map (fun b => Z.land b 127) buf.

(** [buf.toString("utf16le")]: one code unit for every two bytes, low
    byte first; a trailing odd byte is dropped. *)
Fixpoint toString_utf16le (buf : Buffer) : jsstring :=
  match buf with
  | lo :: hi :: rest => (lo + hi * 2 ^ 8) :: toString_utf16le rest
  | _ => []
  end.

(** The regular expression [/\0.*$/g] of the source. [.] matches any
    code unit but the four line terminators, and without the [m] flag
    [$] matches at the end of the input only. *)
Definition isLineTerminator (c : Z) : bool :=
  (c =? 10) || (c =? 13) || (c =? 8232) || (c =? 8233).

(** Does [\0.*$] match at the start of [s]? The greedy [.*] stops at the
    first line terminator, so [$] holds after it exactly when there is
    none. *)
Definition match_nul_tail (s : jsstring) : bool :=
  match s with
  | c :: t => (c =? 0) && forallb (fun d => negb (isLineTerminator d)) t
  | [] => false
  end.

(** [s.replace(/\0.*$/g, "")]: the leftmost match is removed; it runs to
    the end of the string, so no second match follows. *)
Fixpoint replace_nul_tail (s : jsstring) : jsstring :=
  match s with
  | [] => []
  | c :: t => if match_nul_tail s then [] else c :: replace_nul_tail t
  end.

(** [s.padEnd(n, "\x00")] *)
Definition padEnd (s : jsstring) (n : nat) : jsstring :=
  s ++ replicate (n - length s)%nat 0.

(** Buffer mutation: the buffer when the method returns or throws. *)
Inductive outcome : Type :=
| Done (buf : Buffer)
| Thrown (e : error) (buf : Buffer).

Definition writer : Type := Buffer -> outcome.

Definition andThen (w1 w2 : writer) : writer :=
  fun buf =>
    match w1 buf with
    | Done buf' => w2 buf'
    | Thrown e buf' => Thrown e buf'
    end.

Definition skip : writer := Done.

Definition throw (e : error) : writer := Thrown e.

Definition final (o : outcome) : Buffer :=
  match o with Done b => b | Thrown _ b => b end.

(** [console.assert(cond)] inside a method that mutates the buffer: a
    diagnostic on the console when [cond] is false, no exception. *)
Definition assertW (cond : bool) : writer := skip.

Definition inRange (v lo hi : Z) : bool := (lo <=? v) && (v <=? hi).

(** [buf.writeUInt8(value, offset)]: the value is checked first, then the
    offset. *)
Definition writeUInt8 (value offset : Z) : writer :=
  fun buf =>
    if negb (inRange value 0 255) then Thrown (ValueRangeError value) buf
    else match byteAt buf offset with
         | None => Thrown (RangeError offset) buf
         | Some _ => Done (<[Z.to_nat offset := value]> buf)
         end.

(** [buf.writeUInt16LE(value, offset)] *)
Definition writeUInt16LE (value offset : Z) : writer :=
  fun buf =>
    if negb (inRange value 0 65535) then Thrown (ValueRangeError value) buf
    else match byteAt buf offset, byteAt buf (offset + 1) with
         | Some _, Some _ =>
             Done (<[Z.to_nat (offset + 1) := value / 2 ^ 8]>
                     (<[Z.to_nat offset := value mod 2 ^ 8]> buf))
         | _, _ => Thrown (RangeError offset) buf
         end.

(** [buf.writeUInt32LE(value, offset)] *)
Definition writeUInt32LE (value offset : Z) : writer :=
  fun buf =>
    if negb (inRange value 0 4294967295) then Thrown (ValueRangeError value) buf
    else match byteAt buf offset, byteAt buf (offset + 3) with
         | Some _, Some _ =>
             Done (<[Z.to_nat (offset + 3) := value / 2 ^ 24]>
                  (<[Z.to_nat (offset + 2) := (value / 2 ^ 16) mod 2 ^ 8]>
                  (<[Z.to_nat (offset + 1) := (value / 2 ^ 8) mod 2 ^ 8]>
                  (<[Z.to_nat offset := value mod 2 ^ 8]> buf))))
         | _, _ => Thrown (RangeError offset) buf
         end.

(** Bytes stored one after the other from [offset]; what falls past the
    end of the buffer is dropped. *)
Fixpoint write_bytes (bytes : list Z) (offset : nat) (buf : Buffer) : Buffer :=
  match bytes with
  | [] => buf
  | b :: rest => write_bytes rest (S offset) (<[offset := b]> buf)
  end.

(** [buf.write(s, offset, "ascii")]: the offset must lie within
    [0, buf.length]; the low byte of each code unit is stored, as many as
    fit. *)
Definition write_ascii (s : jsstring) (offset : Z) : writer :=
  fun buf =>
    if inRange offset 0 (blen buf)
    then Done (write_bytes (map (fun c => Z.land c 255) s) (Z.to_nat offset) buf)
    else Thrown (RangeError offset) buf.

(** [n.toString(16)] for an integer [n]: lower-case digits, no leading
    zero, a minus sign for a negative number. *)
Definition toString16 (n : Z) : jsstring :=
  js (NilZero.string_of_int (Z.to_hex_int n)).

(** [s.substr(start, length)] for indices within [0, s.length]. *)
Definition substr (s : jsstring) (start len : nat) : jsstring :=
  take len (drop start s).

End Js.

Import Js.

Notation "'let*' x ':=' e 'in' k" := (bind e (fun x => k))
  (at level 10, x name, e at level 100, k at level 200).
Notation "w1 ;; w2" := (andThen w1 w2) (at level 100, w2 at level 200, right associativity).

(** ** Enumerations *)

Module TCNetMessageType.
Definition OptIn : Z := 2.
Definition OptOut : Z := 3.
Definition Status : Z := 5.
Definition TimeSync : Z := 10.
Definition Error : Z := 13.
Definition Request : Z := 20.
Definition ApplicationData : Z := 30.
Definition Control : Z := 101.
Definition Text : Z := 128.
Definition Keyboard : Z := 132.
Definition Data : Z := 200.
Definition File : Z := 204.
Definition Time : Z := 254.
End TCNetMessageType.

Module TCNetDataPacketType.
Definition MetricsData : Z := 2.
Definition MetaData : Z := 4.
Definition BeatGridData : Z := 8.
Definition CUEData : Z := 12.
Definition SmallWaveFormData : Z := 16.
Definition BigWaveFormData : Z := 32.
Definition MixerData : Z := 150.
End TCNetDataPacketType.

(** ** The management header (bytes 0..23 of every packet) *)

Module TCNetManagementHeader.
Definition MAJOR_VERSION : Z := 3.
Definition MAGIC_HEADER : jsstring := js "TCN".

Record t : Type := mk {
  nodeId : Z;
  minorVersion : Z;
  messageType : Z;
  nodeName : jsstring;
  seq : Z;
  nodeType : Z;
  nodeOptions : Z;
  timestamp : Z
}.

Definition read (buf : Buffer) : result t :=
  let* nodeId := readUInt16LE buf 0 in
  let* major := readUInt8 buf 2 in
  let* _ := assert (major =? MAJOR_VERSION) in
  let* minorVersion := readUInt8 buf 3 in
  let* _ := assert (bool_decide (toString_ascii (slice buf 4 7) = MAGIC_HEADER)) in
  let* messageType := readUInt8 buf 7 in
  let nodeName := replace_nul_tail (toString_ascii (slice buf 8 16)) in
  let* seq := readUInt8 buf 16 in
  let* nodeType := readUInt8 buf 17 in
  let* nodeOptions := readUInt16LE buf 18 in
  let* timestamp := readUInt32LE buf 20 in
  Ok (mk nodeId minorVersion messageType nodeName seq nodeType nodeOptions timestamp).

Definition write (h : t) : writer :=
  assertW (bool_decide (Z.of_nat (length (nodeName h)) <= 8)) ;;
  writeUInt16LE (nodeId h) 0 ;;
  writeUInt8 MAJOR_VERSION 2 ;;
  writeUInt8 (minorVersion h) 3 ;;
  write_ascii MAGIC_HEADER 4 ;;
  writeUInt8 (messageType h) 7 ;;
  write_ascii (padEnd (nodeName h) 8) 8 ;;
  writeUInt8 (seq h) 16 ;;
  writeUInt8 (nodeType h) 17 ;;
  writeUInt16LE (nodeOptions h) 18 ;;
  writeUInt32LE (timestamp h) 20.
End TCNetManagementHeader.

(** ** OptIn, OptOut *)

Module TCNetOptInPacket.
Record t : Type := mk {
  nodeCount : Z;
  nodeListenerPort : Z;
  uptime : Z;
  vendorName : jsstring;
  appName : jsstring;
  majorVersion : Z;
  minorVersion : Z;
  bugVersion : Z
}.

Definition read (buf : Buffer) : result t :=
  let* nodeCount := readUInt16LE buf 24 in
  let* nodeListenerPort := readUInt16LE buf 26 in
  let* uptime := readUInt16LE buf 28 in
  let vendorName := replace_nul_tail (toString_ascii (slice buf 32 48)) in
  let appName := replace_nul_tail (toString_ascii (slice buf 48 64)) in
  let* majorVersion := readUInt8 buf 64 in
  let* minorVersion := readUInt8 buf 65 in
  let* bugVersion := readUInt8 buf 66 in
  Ok (mk nodeCount nodeListenerPort uptime vendorName appName
         majorVersion minorVersion bugVersion).

(** The last three calls are [writeUInt8(64, this.majorVersion)],
    [writeUInt8(65, this.minorVersion)] and
    [writeUInt8(66, this.bugVersion)]: [writeUInt8] takes the value
    first, so the constants are the values stored and the fields are the
    offsets. *)
Definition write (p : t) : writer :=
  assertW (bool_decide (Z.of_nat (length (vendorName p)) <= 16)) ;;
  assertW (bool_decide (Z.of_nat (length (appName p)) <= 16)) ;;
  writeUInt16LE (nodeCount p) 24 ;;
  writeUInt16LE (nodeListenerPort p) 26 ;;
  writeUInt16LE (uptime p) 28 ;;
  write_ascii (padEnd (vendorName p) 16) 32 ;;
  write_ascii (padEnd (appName p) 16) 48 ;;
  writeUInt8 64 (majorVersion p) ;;
  writeUInt8 65 (minorVersion p) ;;
  writeUInt8 66 (bugVersion p).

Definition length : Z := 68.
Definition type : Z := TCNetMessageType.OptIn.
End TCNetOptInPacket.

Module TCNetOptOutPacket.
Record t : Type := mk {
  nodeCount : Z;
  nodeListenerPort : Z
}.

Definition read (buf : Buffer) : result t :=
  let* nodeCount := readUInt16LE buf 24 in
  let* nodeListenerPort := readUInt16LE buf 26 in
  Ok (mk nodeCount nodeListenerPort).

Definition write (p : t) : writer :=
  writeUInt16LE (nodeCount p) 24 ;;
  writeUInt16LE (nodeListenerPort p) 26.

Definition length : Z := 28.
Definition type : Z := TCNetMessageType.OptOut.
End TCNetOptOutPacket.

(** ** Status *)

Module TCNetStatusPacket.
Record t : Type := mk {
  nodeCount : Z;
  nodeListenerPort : Z;
  layerSource : list Z;
  layerStatus : list Z;
  trackID : list Z;
  smpteMode : Z;
  autoMasterMode : Z;
  layerName : list jsstring
}.

Definition read (buf : Buffer) : result t :=
  let* nodeCount := readUInt16LE buf 24 in
  let* nodeListenerPort := readUInt16LE buf 26 in
  let* layerSource := mapM (fun n => readUInt8 buf (34 + n)) (seqZ 0 8) in
  let* layerStatus := mapM (fun n => readUInt8 buf (42 + n)) (seqZ 0 8) in
  let* trackID := mapM (fun n => readUInt32LE buf (50 + n * 4)) (seqZ 0 8) in
  let* smpteMode := readUInt8 buf 83 in
  let* autoMasterMode := readUInt8 buf 84 in
  let layerName :=
    map (fun n => replace_nul_tail
                    (toString_ascii (slice buf (172 + n * 16) (172 + (n + 1) * 16))))
        (seqZ 0 8) in
  Ok (mk nodeCount nodeListenerPort layerSource layerStatus trackID
         smpteMode autoMasterMode layerName).

Definition write (p : t) : writer := throw (Error "not supported!").

Definition length : Z := 300.
Definition type : Z := TCNetMessageType.Status.
End TCNetStatusPacket.

(** ** Request *)

Module TCNetRequestPacket.
Record t : Type := mk {
  dataType : Z;
  layer : Z
}.

Definition read (buf : Buffer) : result t :=
  let* dataType := readUInt8 buf 24 in
  let* layer := readUInt8 buf 25 in
  Ok (mk dataType layer).

Definition write (p : t) : writer :=
  assertW (inRange (dataType p) 0 255) ;;
  assertW (inRange (layer p) 0 255) ;;
  writeUInt8 (dataType p) 24 ;;
  writeUInt8 (layer p) 25.

Definition length : Z := 26.
Definition type : Z := TCNetMessageType.Request.
End TCNetRequestPacket.

(** ** Time *)

Module TCNetTimecode.
Record t : Type := mk {
  mode : Z;
  state : Z;
  hours : Z;
  minutes : Z;
  seconds : Z;
  frames : Z
}.

Definition read (buf : Buffer) (offset : Z) : result t :=
  let* mode := readUInt8 buf (offset + 0) in
  let* state := readUInt8 buf (offset + 1) in
  let* hours := readUInt8 buf (offset + 2) in
  let* minutes := readUInt8 buf (offset + 3) in
  let* seconds := readUInt8 buf (offset + 4) in
  let* frames := readUInt8 buf (offset + 5) in
  Ok (mk mode state hours minutes seconds frames).
End TCNetTimecode.

Module TCNetTimePacket.
Record layerTime : Type := mkLayer {
  currentTime : Z;
  totalTime : Z;
  beatmarker : Z;
  state : Z;
  timecode : TCNetTimecode.t
}.

Record t : Type := mk {
  layerCurrentTime : list Z;
  layerTotalTime : list Z;
  layerBeatmarker : list Z;
  layerState : list Z;
  generalSMPTEMode : Z;
  layerTimecode : list TCNetTimecode.t
}.

(** One turn of the loop of [read], for layer [n]. *)
Definition readLayer (buf : Buffer) (n : Z) : result layerTime :=
  let* currentTime := readUInt32LE buf (24 + n * 4) in
  let* totalTime := readUInt32LE buf (56 + n * 4) in
  let* beatmarker := readUInt8 buf (88 + n) in
  let* state := readUInt8 buf (96 + n) in
  let* timecode := TCNetTimecode.read buf (106 + n * 6) in
  Ok (mkLayer currentTime totalTime beatmarker state timecode).

Definition read (buf : Buffer) : result t :=
  let* layers := mapM (readLayer buf) (seqZ 0 8) in
  let* generalSMPTEMode := readUInt8 buf 105 in
  Ok (mk (map currentTime layers) (map totalTime layers)
         (map beatmarker layers) (map state layers)
         generalSMPTEMode (map timecode layers)).

Definition write (p : t) : writer := throw (Error "not supported!").

Definition length : Z := 154.
Definition type : Z := TCNetMessageType.Time.
End TCNetTimePacket.

(** ** Data packets *)

Module TCNetDataPacket.
Record t : Type := mk {
  dataType : Z;
  layer : Z
}.

Definition read (buf : Buffer) : result t :=
  let* dataType := readUInt8 buf 24 in
  let* layer := readUInt8 buf 25 in
  Ok (mk dataType layer).

Definition write (p : t) : writer :=
  assertW (inRange (dataType p) 0 255) ;;
  assertW (inRange (layer p) 0 255) ;;
  writeUInt8 (dataType p) 24 ;;
  writeUInt8 (layer p) 25.

Definition length : Z := -1.
Definition type : Z := TCNetMessageType.Data.
End TCNetDataPacket.

Module TCNetDataPacketMetrics.
Record t : Type := mk {
  state : Z;
  syncMaster : Z;
  beatMarker : Z;
  trackLength : Z;
  currentPosition : Z;
  speed : Z;
  beatNumber : Z;
  bpm : Z;
  pitchBend : Z;
  trackID : Z
}.

Definition read (buf : Buffer) : result t :=
  let* state := readUInt8 buf 27 in
  let* syncMaster := readUInt8 buf 29 in
  let* beatMarker := readUInt8 buf 31 in
  let* trackLength := readUInt32LE buf 32 in
  let* currentPosition := readUInt32LE buf 36 in
  let* speed := readUInt32LE buf 40 in
  let* beatNumber := readUInt32LE buf 57 in
  let* bpm := readUInt32LE buf 112 in
  let* pitchBend := readUInt16LE buf 116 in
  let* trackID := readUInt32LE buf 118 in
  Ok (mk state syncMaster beatMarker trackLength currentPosition speed
         beatNumber bpm pitchBend trackID).

Definition write (p : t) : writer := throw (Error "not supported!").

Definition length : Z := 122.
End TCNetDataPacketMetrics.

Module TCNetDataPacketMetadata.
Record t : Type := mk {
  trackArtist : jsstring;
  trackTitle : jsstring;
  trackKey : Z;
  trackID : Z
}.

Definition read (buf : Buffer) : result t :=
  let trackArtist := replace_nul_tail (toString_utf16le (slice buf 29 285)) in
  let trackTitle := replace_nul_tail (toString_utf16le (slice buf 285 541)) in
  let* trackKey := readUInt16LE buf 541 in
  let* trackID := readUInt32LE buf 543 in
  Ok (mk trackArtist trackTitle trackKey trackID).

Definition write (p : t) : writer := throw (Error "not supported!").

Definition length : Z := 548.
End TCNetDataPacketMetadata.

Module MixerChannelData.
Record t : Type := mk {
  channelSourceSelect : Z;
  channelAudioLevel : Z;
  channelFaderLevel : Z;
  channelTrimLevel : Z;
  channelCompLevel : Z;
  channelEqHiLevel : Z;
  channelEqHiMidLevel : Z;
  channelEqLowMidLevel : Z;
  channelEqLowLevel : Z;
  channelFilterColor : Z;
  channelSend : Z;
  channelCueA : bool;
  channelCueB : bool;
  channelCrossfaderAssign : Z
}.

Definition parse (buf : Buffer) (offset : Z) : result t :=
  let* channelSourceSelect := readUInt8 buf offset in
  let* channelAudioLevel := readUInt8 buf (offset + 1) in
  let* channelFaderLevel := readUInt8 buf (offset + 2) in
  let* channelTrimLevel := readUInt8 buf (offset + 3) in
  let* channelCompLevel := readUInt8 buf (offset + 4) in
  let* channelEqHiLevel := readUInt8 buf (offset + 5) in
  let* channelEqHiMidLevel := readUInt8 buf (offset + 6) in
  let* channelEqLowMidLevel := readUInt8 buf (offset + 7) in
  let* channelEqLowLevel := readUInt8 buf (offset + 8) in
  let* channelFilterColor := readUInt8 buf (offset + 9) in
  let* channelSend := readUInt8 buf (offset + 10) in
  let* cueA := readUInt8 buf (offset + 11) in
  let* cueB := readUInt8 buf (offset + 12) in
  let* channelCrossfaderAssign := readUInt8 buf (offset + 13) in
  Ok (mk channelSourceSelect channelAudioLevel channelFaderLevel
         channelTrimLevel channelCompLevel channelEqHiLevel
         channelEqHiMidLevel channelEqLowMidLevel channelEqLowLevel
         channelFilterColor channelSend (cueA =? 1) (cueB =? 1)
         channelCrossfaderAssign).
End MixerChannelData.

Module TCNetDataPacketMixerData.
Record t : Type := mk {
  mixerID : Z;
  mixerType : Z;
  mixerName : jsstring;
  micEqHi : Z;
  micEqLow : Z;
  masterAudioLevel : Z;
  masterFaderLevel : Z;
  linkCueA : bool;
  linkCueB : bool;
  masterFilter : Z;
  masterCueA : bool;
  masterCueB : bool;
  masterIsolatorOnOff : bool;
  masterIsolatorHi : Z;
  masterIsolatorMid : Z;
  masterIsolatorLow : Z;
  filterHpf : Z;
  filterLpf : Z;
  filterResonance : Z;
  sendFxEffect : Z;
  sendFxExt1 : bool;
  sendFxExt2 : bool;
  sendFxMasterMix : Z;
  sendFxSizeFeedback : Z;
  sendFxTime : Z;
  sendFxHPF : Z;
  sendFXLevel : Z;
  sendReturn3SourceSelect : Z;
  sendReturn3Type : Z;
  sendReturn3OnOff : bool;
  sendReturn3Level : Z;
  channelFaderCurve : Z;
  crossFaderCurve : Z;
  crossFader : Z;
  beatFXOnOff : bool;
  beatFXLevelDepth : Z;
  beatFXChannelSelect : Z;
  beatFXSelect : Z;
  beatFXFreqHi : Z;
  beatFXFreqMid : Z;
  beatFXFreqLow : Z;
  headphonesPreEQ : bool;
  headphonesALevel : Z;
  headphonesAMix : Z;
  headphonesBLevel : Z;
  headphonesBMix : Z;
  boothLevel : Z;
  boothEQHi : Z;
  boothEQLow : Z;
  channelData : list MixerChannelData.t
}.

(** [this.buffer.readUInt8(offset) === 1] *)
Definition readFlag (buf : Buffer) (offset : Z) : result bool :=
  let* v := readUInt8 buf offset in Ok (v =? 1).

(** [mixerName] is the one string field read without
    [.replace(/\0.*$/g, "")]. *)
Definition read (buf : Buffer) : result t :=
  let* mixerID := readUInt8 buf 25 in
  let* mixerType := readUInt8 buf 26 in
  let mixerName := toString_ascii (slice buf 29 (29 + 16)) in
  let* micEqHi := readUInt8 buf 59 in
  let* micEqLow := readUInt8 buf 60 in
  let* masterAudioLevel := readUInt8 buf 61 in
  let* masterFaderLevel := readUInt8 buf 62 in
  let* linkCueA := readFlag buf 67 in
  let* linkCueB := readFlag buf 68 in
  let* masterFilter := readUInt8 buf 69 in
  let* masterCueA := readFlag buf 71 in
  let* masterCueB := readFlag buf 72 in
  let* masterIsolatorOnOff := readFlag buf 74 in
  let* masterIsolatorHi := readUInt8 buf 75 in
  let* masterIsolatorMid := readUInt8 buf 76 in
  let* masterIsolatorLow := readUInt8 buf 77 in
  let* filterHpf := readUInt8 buf 79 in
  let* filterLpf := readUInt8 buf 80 in
  let* filterResonance := readUInt8 buf 81 in
  let* sendFxEffect := readUInt8 buf 84 in
  let* sendFxExt1 := readFlag buf 85 in
  let* sendFxExt2 := readFlag buf 86 in
  let* sendFxMasterMix := readUInt8 buf 87 in
  let* sendFxSizeFeedback := readUInt8 buf 88 in
  let* sendFxTime := readUInt8 buf 89 in
  let* sendFxHPF := readUInt8 buf 90 in
  let* sendFXLevel := readUInt8 buf 91 in
  let* sendReturn3SourceSelect := readUInt8 buf 92 in
  let* sendReturn3Type := readUInt8 buf 93 in
  let* sendReturn3OnOff := readFlag buf 94 in
  let* sendReturn3Level := readUInt8 buf 95 in
  let* channelFaderCurve := readUInt8 buf 97 in
  let* crossFaderCurve := readUInt8 buf 98 in
  let* crossFader := readUInt8 buf 99 in
  let* beatFXOnOff := readFlag buf 100 in
  let* beatFXLevelDepth := readUInt8 buf 101 in
  let* beatFXChannelSelect := readUInt8 buf 102 in
  let* beatFXSelect := readUInt8 buf 103 in
  let* beatFXFreqHi := readUInt8 buf 104 in
  let* beatFXFreqMid := readUInt8 buf 105 in
  let* beatFXFreqLow := readUInt8 buf 106 in
  let* headphonesPreEQ := readFlag buf 107 in
  let* headphonesALevel := readUInt8 buf 108 in
  let* headphonesAMix := readUInt8 buf 109 in
  let* headphonesBLevel := readUInt8 buf 110 in
  let* headphonesBMix := readUInt8 buf 111 in
  let* boothLevel := readUInt8 buf 112 in
  let* boothEQHi := readUInt8 buf 113 in
  let* boothEQLow := readUInt8 buf 114 in
  let* channelData :=
    mapM (fun i => MixerChannelData.parse buf (125 + i * 24)) (seqZ 0 6) in
  Ok (mk mixerID mixerType mixerName micEqHi micEqLow masterAudioLevel
         masterFaderLevel linkCueA linkCueB masterFilter masterCueA
         masterCueB masterIsolatorOnOff masterIsolatorHi masterIsolatorMid
         masterIsolatorLow filterHpf filterLpf filterResonance sendFxEffect
         sendFxExt1 sendFxExt2 sendFxMasterMix sendFxSizeFeedback sendFxTime
         sendFxHPF sendFXLevel sendReturn3SourceSelect sendReturn3Type
         sendReturn3OnOff sendReturn3Level channelFaderCurve crossFaderCurve
         crossFader beatFXOnOff beatFXLevelDepth beatFXChannelSelect
         beatFXSelect beatFXFreqHi beatFXFreqMid beatFXFreqLow
         headphonesPreEQ headphonesALevel headphonesAMix headphonesBLevel
         headphonesBMix boothLevel boothEQHi boothEQLow channelData).

Definition write (p : t) : writer := throw (Error "not supported!").

Definition length : Z := 548.
End TCNetDataPacketMixerData.

Module TCNetDataPacketBeatGridData.
(** [read] reports the ambiguity on the console and throws. *)
Definition read (buf : Buffer) : result unit :=
  Throw (Error "not yet implemented - ambiguous data definition in the specification see notes on stderr").

(** [write] is not overridden: the one of [TCNetDataPacket] is inherited. *)
Definition write : TCNetDataPacket.t -> writer := TCNetDataPacket.write.

Definition length : Z := 2442.
End TCNetDataPacketBeatGridData.

Module CueColor.
Record t : Type := mk {
  red : Z;
  green : Z;
  blue : Z
}.

(** [new CueColor(buffer)] *)
Definition fromBuffer (buf : Buffer) : result t :=
  let* red := readUInt8 buf 0 in
  let* green := readUInt8 buf 1 in
  let* blue := readUInt8 buf 2 in
  let* _ := assert (inRange red 0 255) in
  let* _ := assert (inRange green 0 255) in
  let* _ := assert (inRange blue 0 255) in
  Ok (mk red green blue).

(** [new CueColor(red, green, blue)]: an error when [green] or [blue] is
    [undefined]; the range assertions only report. *)
Definition fromRGB (red : Z) (green blue : option Z) : result t :=
  match green, blue with
  | Some g, Some b =>
      let* _ := assert (inRange red 0 255) in
      let* _ := assert (inRange g 0 255) in
      let* _ := assert (inRange b 0 255) in
      Ok (mk red g b)
  | _, _ => Throw (Error "Invalid constructor - must provide r g b")
  end.

Definition toHex (c : t) : jsstring :=
  js "#" ++ substr (toString16 (red c)) 0 2 ++ substr (toString16 (green c)) 0 2
  ++ substr (toString16 (blue c)) 0 2.
End CueColor.

Module CueData.
Record t : Type := mk {
  cueType : Z;
  inTime : Z;
  outTime : Z;
  color : CueColor.t
}.

Definition parse (buf : Buffer) (offset : Z) : result t :=
  let* cueType := readUInt8 buf offset in
  let* inTime := readUInt32LE buf (offset + 2) in
  let* outTime := readUInt32LE buf (offset + 6) in
  let* color := CueColor.fromBuffer (slice_from buf (offset + 11)) in
  Ok (mk cueType inTime outTime color).
End CueData.

Module TCNetDataPacketCueData.
Record t : Type := mk {
  layerID : Z;
  loopIn : Z;
  loopOut : Z;
  cues : list CueData.t
}.

Definition read (buf : Buffer) : result t :=
  let* layerID := readUInt8 buf 25 in
  let* loopIn := readUInt32LE buf 42 in
  let* loopOut := readUInt32LE buf 46 in
  let* cues := mapM (fun i => CueData.parse buf (47 + i * 22)) (seqZ 0 18) in
  Ok (mk layerID loopIn loopOut cues).

(** [write] is not overridden: the one of [TCNetDataPacket] is inherited. *)
Definition write : TCNetDataPacket.t -> writer := TCNetDataPacket.write.

Definition length : Z := 436.
End TCNetDataPacketCueData.

Module TCNetDataPacketWaveFormData.
Record sample : Type := mkSample {
  color : Z;
  level : Z
}.

Record t : Type := mk {
  layerID : Z;
  dataSize : Z;
  totalPacket : Z;
  packetNumber : Z;
  waveformData : list sample
}.

(** The body of the loop, for index [i]:
    [{ color: waves.readUInt8(i * 2), level: waves.readUInt8((i + 1) * 2) }]. *)
Definition readSample (waves : Buffer) (i : Z) : result sample :=
  let* color := readUInt8 waves (i * 2) in
  let* level := readUInt8 waves ((i + 1) * 2) in
  Ok (mkSample color level).

(** The values [i = 0, 1, ...] for which the loop condition
    [i < waves.length / 2] holds (a division of JavaScript numbers, not
    rounded): those with [2 * i < waves.length]. *)
Definition loopIndices (waves : Buffer) : list Z :=
  seqZ 0 ((blen waves + 1) / 2).

Definition read (buf : Buffer) : result t :=
  let* layerID := readUInt8 buf 25 in
  let* dataSize := readUInt32LE buf 26 in
  let* dataType := readUInt8 buf 24 in
  let* _ := if dataType =? 16 then assert (dataSize =? 2400) else Ok tt in
  let* totalPacket := readUInt32LE buf 30 in
  let* packetNumber := readUInt32LE buf 34 in
  let waves := slice buf 42 (42 + dataSize) in
  let* waveformData := mapM (readSample waves) (loopIndices waves) in
  Ok (mk layerID dataSize totalPacket packetNumber waveformData).

(** [write] is not overridden: the one of [TCNetDataPacket] is inherited. *)
Definition write : TCNetDataPacket.t -> writer := TCNetDataPacket.write.

Definition length (dataType : Z) : Z :=
  if dataType =? 16 then 2442 else 4884.
End TCNetDataPacketWaveFormData.

(** ** TimeSync, Error, Control, Text, Keyboard, File, ApplicationData *)

Module TCNetTimeSyncPacket.
Record t : Type := mk {
  step : Z;
  nodeListenerSupport : Z;
  remoteTimestamp : Z
}.

Definition read (buf : Buffer) : result t :=
  let* step := readUInt8 buf 24 in
  let* nodeListenerSupport := readUInt16LE buf 2 in
  let* remoteTimestamp := readUInt32LE buf 28 in
  Ok (mk step nodeListenerSupport remoteTimestamp).

Definition write (p : t) : writer := throw (Error "not supported!").

Definition length : Z := 32.
Definition type : Z := 10.
End TCNetTimeSyncPacket.

Module TCNetErrorNotification.
Record t : Type := mk {
  datatype : Z;
  layerID : Z;
  code : Z;
  messageType : Z
}.

Definition read (buf : Buffer) : result t :=
  let* datatype := readUInt8 buf 24 in
  let* layerID := readUInt8 buf 25 in
  let* code := readUInt16LE buf 26 in
  let* messageType := readUInt16LE buf 28 in
  Ok (mk datatype layerID code messageType).

Definition write (p : t) : writer := throw (Error "not supported!").

Definition length : Z := 30.
Definition type : Z := 13.
End TCNetErrorNotification.

Module TCNetControlPacket.
Record t : Type := mk {
  step : Z;
  dataSize : Z;
  controlPath : jsstring
}.

Definition read (buf : Buffer) : result t :=
  let* step := readUInt8 buf 24 in
  let* dataSize := readUInt32LE buf 26 in
  let controlPath := toString_ascii (slice buf 42 (42 + dataSize)) in
  Ok (mk step dataSize controlPath).

Definition write (p : t) : writer := throw (Error "not supported!").

(** [42 + (this.dataSize ?? 0)] *)
Definition length (dataSize : option Z) : Z := 42 + default 0 dataSize.
Definition type : Z := 101.
End TCNetControlPacket.

(** [TCNetTextDataPacket extends TCNetControlPacket] and overrides [type]
    only. *)
Module TCNetTextDataPacket.
Definition t : Type := TCNetControlPacket.t.
Definition read : Buffer -> result t := TCNetControlPacket.read.
Definition write : t -> writer := TCNetControlPacket.write.
Definition type : Z := 128.
End TCNetTextDataPacket.

Module TCNetKeyboardDataPacket.
Record t : Type := mk {
  dataSize : Z;
  keyboardData : Buffer
}.

(** [this.keyboardData = this.buffer.slice(42, 2)]: the second argument
    of [slice] is the end index. *)
Definition read (buf : Buffer) : result t :=
  let* dataSize := readUInt32LE buf 26 in
  let keyboardData := slice buf 42 2 in
  Ok (mk dataSize keyboardData).

Definition write (p : t) : writer := throw (Error "not supported!").

Definition length : Z := 44.
Definition type : Z := TCNetMessageType.Keyboard.
End TCNetKeyboardDataPacket.

Module TCNetDataFilePacket.
Record t : Type := mk {
  dataType : Z;
  layerID : Z;
  dataSize : Z;
  totalPacket : Z;
  packetNumber : Z;
  dataClusterSize : Z;
  fileData : Buffer
}.

Definition read (buf : Buffer) : result t :=
  let dataType := 128 in
  let* layerID := readUInt8 buf 25 in
  let* dataSize := readUInt32LE buf 26 in
  let* totalPacket := readUInt32LE buf 30 in
  let* packetNumber := readUInt32LE buf 34 in
  let* dataClusterSize := readUInt32LE buf 38 in
  let fileData := slice buf 42 (42 + dataSize) in
  Ok (mk dataType layerID dataSize totalPacket packetNumber dataClusterSize
         fileData).

Definition write (p : t) : writer := throw (Error "not supported!").

Definition length : Z := 42.
Definition type : Z := TCNetMessageType.File.
End TCNetDataFilePacket.

Module TCNetApplicationData.
Record t : Type := mk {
  dataIdentifier1 : Z;
  dataIdentifier2 : Z;
  dataSize : Z;
  totalPackets : Z;
  packetNumber : Z;
  packetSignature : Z;
  data : Buffer
}.

Definition read (buf : Buffer) : result t :=
  let* dataIdentifier1 := readUInt8 buf 24 in
  let* dataIdentifier2 := readUInt8 buf 25 in
  let* dataSize := readUInt32LE buf 26 in
  let* totalPackets := readUInt32LE buf 30 in
  let* packetNumber := readUInt32LE buf 34 in
  let* packetSignature := readUInt32LE buf 38 in
  let data := slice buf 42 (42 + dataSize) in
  Ok (mk dataIdentifier1 dataIdentifier2 dataSize totalPackets packetNumber
         packetSignature data).

Definition write (p : t) : writer := throw (Error "not supported!").

Definition length : Z := 42.
Definition type : Z := TCNetMessageType.ApplicationData.
End TCNetApplicationData.

(** ** Packet values and the dispatch of [write] on their class *)

(** A packet object of one of the classes of the source. The classes that
    extend [TCNetDataPacket] without overriding [write] carry the fields
    [dataType] and [layer] they inherit, which are what their [write]
    stores. *)
Inductive TCNetPacket : Type :=
| OptIn (p : TCNetOptInPacket.t)
| OptOut (p : TCNetOptOutPacket.t)
| Status (p : TCNetStatusPacket.t)
| Request (p : TCNetRequestPacket.t)
| Time (p : TCNetTimePacket.t)
| Data (p : TCNetDataPacket.t)
| MetricsData (p : TCNetDataPacketMetrics.t)
| MetaData (p : TCNetDataPacketMetadata.t)
| MixerData (p : TCNetDataPacketMixerData.t)
| BeatGridData (base : TCNetDataPacket.t)
| CUEData (base : TCNetDataPacket.t) (p : TCNetDataPacketCueData.t)
| WaveFormData (base : TCNetDataPacket.t) (p : TCNetDataPacketWaveFormData.t)
| TimeSync (p : TCNetTimeSyncPacket.t)
| ErrorNotification (p : TCNetErrorNotification.t)
| Control (p : TCNetControlPacket.t)
| Text (p : TCNetTextDataPacket.t)
| Keyboard (p : TCNetKeyboardDataPacket.t)
| File (p : TCNetDataFilePacket.t)
| ApplicationData (p : TCNetApplicationData.t).

(** [packet.write()], resolved on the class of [packet]. *)
Definition write (packet : TCNetPacket) : writer :=
  match packet with
  | OptIn p => TCNetOptInPacket.write p
  | OptOut p => TCNetOptOutPacket.write p
  | Status p => TCNetStatusPacket.write p
  | Request p => TCNetRequestPacket.write p
  | Time p => TCNetTimePacket.write p
  | Data p => TCNetDataPacket.write p
  | MetricsData p => TCNetDataPacketMetrics.write p
  | MetaData p => TCNetDataPacketMetadata.write p
  | MixerData p => TCNetDataPacketMixerData.write p
  | BeatGridData base => TCNetDataPacketBeatGridData.write base
  | CUEData base _ => TCNetDataPacketCueData.write base
  | WaveFormData base _ => TCNetDataPacketWaveFormData.write base
  | TimeSync p => TCNetTimeSyncPacket.write p
  | ErrorNotification p => TCNetErrorNotification.write p
  | Control p => TCNetControlPacket.write p
  | Text p => TCNetTextDataPacket.write p
  | Keyboard p => TCNetKeyboardDataPacket.write p
  | File p => TCNetDataFilePacket.write p
  | ApplicationData p => TCNetApplicationData.write p
  end.

(** ** Little-endian fields of a buffer, as the layout tables state them *)

(** The byte at [offset], and the unsigned 16- and 32-bit little-endian
    integers that start there. *)
Definition u8 (buf : Buffer) (offset : Z) : Z := nth (Z.to_nat offset) buf 0.

Definition u16le (buf : Buffer) (offset : Z) : Z :=
  u8 buf offset + u8 buf (offset + 1) * 2 ^ 8.

Definition u32le (buf : Buffer) (offset : Z) : Z :=
  u8 buf offset + u8 buf (offset + 1) * 2 ^ 8 + u8 buf (offset + 2) * 2 ^ 16
  + u8 buf (offset + 3) * 2 ^ 24.

(** The bytes [start .. end - 1] of a buffer. *)
Definition bytes (buf : Buffer) (start end_ : Z) : Buffer :=
  take (Z.to_nat (end_ - start)) (drop (Z.to_nat start) buf).

(** The prefix of a string before its first NUL code unit. *)
Fixpoint untilNul (s : jsstring) : jsstring :=
  match s with
  | [] => []
  | c :: t => if c =? 0 then [] else c :: untilNul t
  end.

(** The part of a string from its first NUL code unit on. *)
Fixpoint fromNul (s : jsstring) : jsstring :=
  match s with
  | [] => []
  | c :: t => if c =? 0 then s else fromNul t
  end.

(** A string field is regularly padded when nothing from its first NUL on
    is a line terminator; a field padded with NULs is. *)
Definition regularPadding (s : jsstring) : Prop :=
  Forall (fun c => isLineTerminator c = false) (fromNul s).

(** The number of hexadecimal digits [toHex] gives a colour component
    between 0 and 255. *)
Definition hexWidth (v : Z) : nat := if v <? 16 then 1%nat else 2%nat.

(** ** Declared widths *)

Definition isU8 (v : Z) : Prop := 0 <= v <= 255.
Definition isU16 (v : Z) : Prop := 0 <= v <= 65535.
Definition isU32 (v : Z) : Prop := 0 <= v <= 4294967295.

(** An ASCII string without NUL that fits a field of [width] bytes. *)
Definition asciiText (s : jsstring) (width : nat) : Prop :=
  Forall (fun c => 1 <= c <= 127) s /\ (length s <= width)%nat.

Definition headerWithinWidths (h : TCNetManagementHeader.t) : Prop :=
  isU16 (TCNetManagementHeader.nodeId h)
  /\ isU8 (TCNetManagementHeader.minorVersion h)
  /\ isU8 (TCNetManagementHeader.messageType h)
  /\ asciiText (TCNetManagementHeader.nodeName h) 8
  /\ isU8 (TCNetManagementHeader.seq h)
  /\ isU8 (TCNetManagementHeader.nodeType h)
  /\ isU16 (TCNetManagementHeader.nodeOptions h)
  /\ isU32 (TCNetManagementHeader.timestamp h).

Definition optInWithinWidths (p : TCNetOptInPacket.t) : Prop :=
  isU16 (TCNetOptInPacket.nodeCount p)
  /\ isU16 (TCNetOptInPacket.nodeListenerPort p)
  /\ isU16 (TCNetOptInPacket.uptime p)
  /\ asciiText (TCNetOptInPacket.vendorName p) 16
  /\ asciiText (TCNetOptInPacket.appName p) 16.

(** The integer fields of a header fit their widths; nothing is said of
    its node name. *)
Definition headerIntegersFit (h : TCNetManagementHeader.t) : Prop :=
  isU16 (TCNetManagementHeader.nodeId h)
  /\ isU8 (TCNetManagementHeader.minorVersion h)
  /\ isU8 (TCNetManagementHeader.messageType h)
  /\ isU8 (TCNetManagementHeader.seq h)
  /\ isU8 (TCNetManagementHeader.nodeType h)
  /\ isU16 (TCNetManagementHeader.nodeOptions h)
  /\ isU32 (TCNetManagementHeader.timestamp h).

(** ** Classes without serialisation, as the specification lists them *)

Definition writeUnsupported (packet : TCNetPacket) : bool :=
  match packet with
  | Status _ | Time _ | TimeSync _ | ErrorNotification _ | MetricsData _
  | MetaData _ | MixerData _ | Control _ | Text _ | Keyboard _ | File _
  | ApplicationData _ => true
  | OptIn _ | OptOut _ | Request _ | Data _ | BeatGridData _ | CUEData _ _
  | WaveFormData _ _ => false
  end.

(** The exceptions of the buffer accessors. *)
Definition isRangeError (e : error) : Prop :=
  match e with
  | RangeError _ | ValueRangeError _ => True
  | Error _ => False
  end.

Definition throwsOnlyRangeErrors (w : writer) : Prop :=
  forall buf e buf', w buf = Thrown e buf' -> isRangeError e.

(** ** Sample packets and datagrams *)

(** The UTF-16LE bytes of a string, and a field of [width] bytes padded
    with NULs. *)
Definition utf16le_bytes (s : jsstring) : Buffer :=
  concat (map (fun c => [c mod 2 ^ 8; c / 2 ^ 8]) s).

Definition padded (b : Buffer) (width : nat) : Buffer :=
  b ++ replicate (width - length b) 0.

(** The header of node 7, "NODE", protocol 3.5, sequence 1, a master
    ([nodeType] 2), options 7, timestamp 1000, for message type [ty]. *)
Definition sample_header (ty : Z) : Buffer :=
  [7; 0; 3; 5; 84; 67; 78; ty; 78; 79; 68; 69; 0; 0; 0; 0; 1; 2; 7; 0;
   232; 3; 0; 0].

(** The fields of [sample_header 2]. *)
Definition sample_header_fields : TCNetManagementHeader.t :=
  {| TCNetManagementHeader.nodeId := 7;
     TCNetManagementHeader.minorVersion := 5;
     TCNetManagementHeader.messageType := 2;
     TCNetManagementHeader.nodeName := js "NODE";
     TCNetManagementHeader.seq := 1;
     TCNetManagementHeader.nodeType := 2;
     TCNetManagementHeader.nodeOptions := 7;
     TCNetManagementHeader.timestamp := 1000 |}.

(** [sample_header_fields] with a node name of eighteen characters. *)
Definition long_name_header : TCNetManagementHeader.t :=
  {| TCNetManagementHeader.nodeId := 7;
     TCNetManagementHeader.minorVersion := 5;
     TCNetManagementHeader.messageType := 20;
     TCNetManagementHeader.nodeName := js "ABCDEFGHIJKLMNOPQR";
     TCNetManagementHeader.seq := 1;
     TCNetManagementHeader.nodeType := 2;
     TCNetManagementHeader.nodeOptions := 7;
     TCNetManagementHeader.timestamp := 1000 |}.

(** A header whose major version is 9 and whose magic is "XXX". *)
Definition bad_magic_datagram : Buffer :=
  [7; 0; 9; 5; 88; 88; 88; 2; 78; 79; 68; 69; 0; 0; 0; 0; 1; 2; 7; 0;
   232; 3; 0; 0].

(** A header whose node name field holds "AB", a NUL, a line feed and
    four NULs. *)
Definition linebreak_name_datagram : Buffer :=
  [7; 0; 3; 5; 84; 67; 78; 2; 65; 66; 0; 10; 0; 0; 0; 0; 1; 2; 7; 0;
   232; 3; 0; 0].

(** An OptIn packet within the declared widths, announcing version 3.5.1,
    and the 68-byte buffer its [write] leaves, starting from
    [Buffer.alloc(68)]. *)
Definition optin_packet : TCNetOptInPacket.t :=
  {| TCNetOptInPacket.nodeCount := 1;
     TCNetOptInPacket.nodeListenerPort := 65023;
     TCNetOptInPacket.uptime := 10;
     TCNetOptInPacket.vendorName := js "PIONEER DJ CORP";
     TCNetOptInPacket.appName := js "NODE";
     TCNetOptInPacket.majorVersion := 3;
     TCNetOptInPacket.minorVersion := 5;
     TCNetOptInPacket.bugVersion := 1 |}.

Definition optin_written : Buffer :=
  final (TCNetOptInPacket.write optin_packet (alloc 68)).

(** [optin_packet] with a major version of 68, the length of its buffer. *)
Definition optin_packet_v68 : TCNetOptInPacket.t :=
  {| TCNetOptInPacket.nodeCount := 1;
     TCNetOptInPacket.nodeListenerPort := 65023;
     TCNetOptInPacket.uptime := 10;
     TCNetOptInPacket.vendorName := js "PIONEER DJ CORP";
     TCNetOptInPacket.appName := js "NODE";
     TCNetOptInPacket.majorVersion := 68;
     TCNetOptInPacket.minorVersion := 5;
     TCNetOptInPacket.bugVersion := 1 |}.

(** An OptIn datagram as a peer sends it: vendor "PIONEER DJ CORP",
    application "NODE", version 3.5.1. *)
Definition optin_datagram : Buffer :=
  sample_header 2 ++ [1; 0; 255; 253; 10; 0; 0; 0]
  ++ padded [80; 73; 79; 78; 69; 69; 82; 32; 68; 74; 32; 67; 79; 82; 80] 16
  ++ padded [78; 79; 68; 69] 16 ++ [3; 5; 1; 0].

Definition optout_packet : TCNetOptOutPacket.t :=
  {| TCNetOptOutPacket.nodeCount := 2;
     TCNetOptOutPacket.nodeListenerPort := 65023 |}.

Definition request_packet : TCNetRequestPacket.t :=
  {| TCNetRequestPacket.dataType := 4;
     TCNetRequestPacket.layer := 2 |}.

Definition data_packet : TCNetDataPacket.t :=
  {| TCNetDataPacket.dataType := 150;
     TCNetDataPacket.layer := 1 |}.

(** A Status datagram of 299 bytes, one short of the declared 300: the
    eighth layer name, asked for at bytes 284..300, has 15 bytes left, all
    the letter A. *)
Definition short_status_datagram : Buffer :=
  sample_header 5 ++ replicate 260 0 ++ replicate 15 65.

(** A MetaData datagram built from artist "Artist", title "Song", key 5
    and track id 42, 548 bytes long. *)
Definition metadata_datagram : Buffer :=
  sample_header 200 ++ [4; 1; 0; 0; 0]
  ++ padded (utf16le_bytes (js "Artist")) 256
  ++ padded (utf16le_bytes (js "Song")) 256
  ++ [5; 0] ++ [42; 0; 0; 0] ++ [0].

(** A MixerData datagram of 548 bytes whose mixer name field holds "DJM"
    and thirteen NULs. *)
Definition mixer_datagram : Buffer :=
  sample_header 200 ++ [150; 1; 2; 0; 0] ++ padded [68; 74; 77] 16
  ++ replicate 503 0.

(** A BigWaveForm datagram with a four-byte payload: two samples, of
    colours 10, 20 and levels 200, 100 when the payload is read as
    colour/level pairs. *)
Definition waveform_datagram : Buffer :=
  sample_header 200 ++ [32; 1; 4; 0; 0; 0; 1; 0; 0; 0; 0; 0; 0; 0]
  ++ replicate 4 0 ++ [10; 200; 20; 100].

(** A SmallWaveForm datagram of the declared 2442 bytes: [dataSize] 2400
    and 1200 samples of colour 5 and level 9. *)
Definition small_waveform_datagram : Buffer :=
  sample_header 200 ++ [16; 1; 96; 9; 0; 0; 1; 0; 0; 0; 0; 0; 0; 0]
  ++ replicate 4 0 ++ concat (replicate 1200 [5; 9]).

(** A TimeSync datagram: step 1, remote timestamp [0x12345678]. *)
Definition timesync_datagram : Buffer :=
  sample_header 10 ++ [1; 0; 0; 0; 120; 86; 52; 18].

(** A Keyboard datagram of the declared 44 bytes: [dataSize] 2 and the two
    payload bytes 65, 66 at offsets 42 and 43. *)
Definition keyboard_datagram : Buffer :=
  sample_header 132 ++ [0; 0; 2; 0; 0; 0] ++ replicate 12 0 ++ [65; 66].

(** A File datagram of 45 bytes that declares a [dataSize] of 10: three of
    the ten payload bytes are there. *)
Definition short_file_datagram : Buffer :=
  sample_header 204 ++ [128; 1; 10; 0; 0; 0; 1; 0; 0; 0; 0; 0; 0; 0]
  ++ replicate 4 0 ++ [1; 2; 3].

(** A Control datagram of 47 bytes that declares a [dataSize] of 8: five
    of the eight path bytes are there, "/a", NUL, "bc". *)
Definition short_control_datagram : Buffer :=
  sample_header 101 ++ [1; 0; 8; 0; 0; 0] ++ replicate 12 0 ++ [47; 97; 0; 98; 99].

(** A CUEData datagram of 435 bytes: loop in 1000, loop out [0x04030201]
    at offsets 46..49, and zeros after. *)
Definition cue_datagram : Buffer :=
  sample_header 200 ++ [12; 1] ++ replicate 16 0 ++ [232; 3; 0; 0]
  ++ [1; 2; 3; 4] ++ replicate 385 0.

(** A SmallWaveForm datagram that declares an empty payload. *)
Definition empty_waveform_datagram : Buffer :=
  sample_header 200 ++ [16; 1; 0; 0; 0; 0; 1; 0; 0; 0; 0; 0; 0; 0]
  ++ replicate 4 0.

(** A Status datagram of the declared 300 bytes: layer 1 plays (status 3)
    track 258 from source 1, and the first layer name is "DeckA". *)
Definition status_datagram : Buffer :=
  sample_header 5 ++ [2; 0; 255; 253] ++ replicate 6 0
  ++ [1; 0; 0; 0; 0; 0; 0; 0] ++ [3; 0; 0; 0; 0; 0; 0; 0]
  ++ [2; 1; 0; 0] ++ replicate 28 0 ++ [0; 4; 1] ++ replicate 87 0
  ++ padded [68; 101; 99; 107; 65] 16 ++ replicate 112 0.

(** A Time datagram of the declared 154 bytes: layer 0 is 1000 ms into a
    track of 65536 ms, with time code 01:02:03 frame 4. *)
Definition time_datagram : Buffer :=
  sample_header 254 ++ [232; 3; 0; 0] ++ replicate 28 0 ++ [0; 0; 1; 0]
  ++ replicate 28 0 ++ replicate 8 0 ++ [3] ++ replicate 7 0 ++ [0; 25]
  ++ [25; 1; 1; 2; 3; 4] ++ replicate 42 0.

(** A Metrics datagram of the declared 122 bytes: playing (state 3), at
    12800 (128.00 BPM), track 258. *)
Definition metrics_datagram : Buffer :=
  sample_header 200 ++ [2; 1; 0; 3; 0; 1; 0; 4] ++ [0; 0; 1; 0] ++ [232; 3; 0; 0]
  ++ [0; 128; 0; 0] ++ replicate 13 0 ++ [9; 0; 0; 0] ++ replicate 51 0
  ++ [0; 50; 0; 0] ++ [100; 0] ++ [2; 1; 0; 0].

(** ** Accessors within and beyond the buffer *)

Section Accessors.
Variable buf : Buffer.

Lemma byteAt_inside i : 0 <= i < blen buf -> byteAt buf i = Some (u8 buf i).
Proof.
  intros [Hlo Hhi]. unfold byteAt, u8, blen in *.
  destruct (Z.leb_spec 0 i) as [_|]; [|lia].
  destruct (buf !! Z.to_nat i) as [v|] eqn:E.
  - f_equal. symmetry. apply nth_lookup_Some with (d := 0) in E. exact E.
  - apply lookup_ge_None in E. lia.
Qed.

Lemma byteAt_outside i : i < 0 \/ blen buf <= i -> byteAt buf i = None.
Proof.
  intros H. unfold byteAt, blen in *.
  destruct (Z.leb_spec 0 i); [|reflexivity].
  apply lookup_ge_None. lia.
Qed.

Lemma readUInt8_inside off :
  0 <= off < blen buf -> readUInt8 buf off = Ok (u8 buf off).
Proof. intros H. unfold readUInt8. now rewrite byteAt_inside. Qed.

Lemma readUInt16LE_inside off :
  0 <= off -> off + 2 <= blen buf -> readUInt16LE buf off = Ok (u16le buf off).
Proof.
  intros H1 H2. unfold readUInt16LE, u16le.
  rewrite !byteAt_inside by lia. reflexivity.
Qed.

Lemma readUInt32LE_inside off :
  0 <= off -> off + 4 <= blen buf -> readUInt32LE buf off = Ok (u32le buf off).
Proof.
  intros H1 H2. unfold readUInt32LE, u32le.
  rewrite !byteAt_inside by lia. reflexivity.
Qed.

Lemma readUInt8_outside off :
  off < 0 \/ blen buf < off + 1 -> readUInt8 buf off = Throw (RangeError off).
Proof. intros H. unfold readUInt8. rewrite byteAt_outside by lia. reflexivity. Qed.

Lemma readUInt16LE_outside off :
  off < 0 \/ blen buf < off + 2 -> readUInt16LE buf off = Throw (RangeError off).
Proof.
  intros H. unfold readUInt16LE.
  destruct (byteAt buf off) eqn:E1; [|reflexivity].
  rewrite byteAt_outside; [reflexivity|].
  destruct (Z.lt_ge_cases off 0) as [Hn|Hp]; [|lia].
  rewrite byteAt_outside in E1 by lia. discriminate.
Qed.

Lemma readUInt32LE_outside off :
  off < 0 \/ blen buf < off + 4 -> readUInt32LE buf off = Throw (RangeError off).
Proof.
  intros H. unfold readUInt32LE.
  destruct (byteAt buf off) eqn:E1; [|reflexivity].
  rewrite byteAt_outside; [reflexivity|].
  destruct (Z.lt_ge_cases off 0) as [Hn|Hp]; [|lia].
  rewrite byteAt_outside in E1 by lia. discriminate.
Qed.

Lemma adjustOffset_inside off : 0 <= off <= blen buf -> adjustOffset off (blen buf) = off.
Proof.
  intros H. unfold adjustOffset.
  destruct (Z.ltb_spec off 0); lia.
Qed.

Lemma slice_inside s e :
  0 <= s -> s <= e -> e <= blen buf -> slice buf s e = bytes buf s e.
Proof.
  intros H1 H2 H3. unfold slice, bytes.
  rewrite !adjustOffset_inside by lia.
  destruct (Z.gtb_spec e s) as [Hgt|Hle]; [reflexivity|].
  replace e with s by lia. now rewrite Z.sub_diag.
Qed.

Lemma slice_nonempty s n :
  0 <= s < blen buf -> 1 <= n -> 1 <= blen (slice buf s (s + n)).
Proof.
  intros Hs Hn. unfold slice.
  rewrite (adjustOffset_inside s) by lia.
  unfold adjustOffset. destruct (Z.ltb_spec (s + n) 0); [lia|].
  destruct (Z.gtb_spec (Z.min (s + n) (blen buf)) s); [|lia].
  unfold blen in *. rewrite length_take, length_drop. lia.
Qed.
End Accessors.

(** ** Header validation *)

(** X5. On every buffer of 24 bytes or more the header decoder returns a
    header, whatever the major version byte and the magic bytes are: the
    two assertions never stop it. *)
Lemma header_read_total (buf : Buffer) :
  24 <= blen buf -> exists h, TCNetManagementHeader.read buf = Ok h.
Proof.
  intros Hlen. unfold TCNetManagementHeader.read.
  rewrite !readUInt8_inside, !readUInt16LE_inside, readUInt32LE_inside by lia.
  cbn. eexists. reflexivity.
Qed.

Lemma header_read_total_witness :
  24 <= blen bad_magic_datagram
  /\ exists h, TCNetManagementHeader.read bad_magic_datagram = Ok h.
Proof.
  assert (24 <= blen bad_magic_datagram) as H by (vm_compute; discriminate).
  split; [exact H|]. exact (header_read_total bad_magic_datagram H).
Defined.

(** C2. The specification asks that a datagram whose major version is not
    3 or whose magic is not "TCN" be rejected. On a 24-byte header with
    major version 9 and magic "XXX", [read] returns a header value with
    every field decoded: its assertions are [console.assert], which only
    reports. *)
Theorem header_read_accepts_bad_magic :
  u8 bad_magic_datagram 2 <> TCNetManagementHeader.MAJOR_VERSION
  /\ toString_ascii (slice bad_magic_datagram 4 7) <> TCNetManagementHeader.MAGIC_HEADER
  /\ TCNetManagementHeader.read bad_magic_datagram
     = Ok {| TCNetManagementHeader.nodeId := 7;
             TCNetManagementHeader.minorVersion := 5;
             TCNetManagementHeader.messageType := 2;
             TCNetManagementHeader.nodeName := js "NODE";
             TCNetManagementHeader.seq := 1;
             TCNetManagementHeader.nodeType := 2;
             TCNetManagementHeader.nodeOptions := 7;
             TCNetManagementHeader.timestamp := 1000 |}.
Proof.
  split; [|split].
  - intros H. vm_compute in H. discriminate.
  - intros H. vm_compute in H. discriminate.
  - vm_compute. reflexivity.
Qed.

(** ** Fixed-width strings *)

Lemma replace_nul_tail_regular (s : jsstring) :
  regularPadding s -> replace_nul_tail s = untilNul s.
Proof.
  unfold regularPadding. induction s as [|c t IH]; [reflexivity|].
  cbn [fromNul untilNul replace_nul_tail match_nul_tail].
  destruct (c =? 0) eqn:Hc; cbn [andb].
  - intros Hreg. apply Forall_cons_1 in Hreg as [_ Ht].
    replace (forallb (fun d => negb (isLineTerminator d)) t) with true; [reflexivity|].
    symmetry. apply forallb_forall. intros d Hd.
    rewrite Forall_forall in Ht. rewrite (Ht d); [reflexivity|].
    now apply list_elem_of_In.
  - intros Hreg. f_equal. now apply IH.
Qed.

Lemma regularPadding_nul_padded (s : jsstring) (n : nat) :
  Forall (fun c => c <> 0) s -> regularPadding (s ++ replicate n 0).
Proof.
  unfold regularPadding. induction 1 as [|c t Hc _ IH]; cbn [app fromNul].
  - induction n as [|n IHn]; cbn; [constructor|].
    constructor; [reflexivity|]. clear IHn.
    induction n; cbn; constructor; auto.
  - destruct (Z.eqb_spec c 0); [contradiction|]. exact IH.
Qed.

Lemma untilNul_nul_padded (s : jsstring) (n : nat) :
  Forall (fun c => c <> 0) s -> untilNul (s ++ replicate n 0) = s.
Proof.
  induction 1 as [|c t Hc _ IH]; cbn [app untilNul].
  - destruct n; reflexivity.
  - destruct (Z.eqb_spec c 0); [contradiction|]. now rewrite IH.
Qed.

(** What the five decoders that trim do on a regularly padded field: a
    field of NULs only gives the empty string, a field without NUL is kept
    whole, and a string followed by NULs alone is recovered. *)
Lemma replace_nul_tail_cases (s : jsstring) (n : nat) :
  replace_nul_tail (replicate n 0) = []
  /\ (Forall (fun c => c <> 0) s -> replace_nul_tail s = s)
  /\ (Forall (fun c => c <> 0) s -> replace_nul_tail (s ++ replicate n 0) = s).
Proof.
  assert (forall (t : jsstring) k, Forall (fun c => c <> 0) t ->
                 replace_nul_tail (t ++ replicate k 0) = t) as H.
  { intros t k Ht. rewrite replace_nul_tail_regular by now apply regularPadding_nul_padded.
    now apply untilNul_nul_padded. }
  split; [|split].
  - apply (H [] n), Forall_nil_2.
  - intros Hs. pose proof (H s 0%nat Hs) as H0. cbn in H0.
    now rewrite app_nil_r in H0.
  - apply H.
Qed.

(** X7. On a buffer that holds an OptIn datagram, the node name of the
    header and the vendor and application names of the body are their
    fields cut at the first NUL, when the fields are regularly padded
    (nothing from the first NUL on is a line terminator). *)
Lemma optin_strings_cut_at_nul (buf : Buffer) :
  TCNetOptInPacket.length <= blen buf ->
  regularPadding (toString_ascii (bytes buf 8 16)) ->
  regularPadding (toString_ascii (bytes buf 32 48)) ->
  regularPadding (toString_ascii (bytes buf 48 64)) ->
  exists h p,
    TCNetManagementHeader.read buf = Ok h
    /\ TCNetOptInPacket.read buf = Ok p
    /\ TCNetManagementHeader.nodeName h = untilNul (toString_ascii (bytes buf 8 16))
    /\ TCNetOptInPacket.vendorName p = untilNul (toString_ascii (bytes buf 32 48))
    /\ TCNetOptInPacket.appName p = untilNul (toString_ascii (bytes buf 48 64)).
Proof.
  unfold TCNetOptInPacket.length. intros Hlen Hname Hvendor Happ.
  unfold TCNetManagementHeader.read, TCNetOptInPacket.read.
  rewrite !readUInt8_inside, !readUInt16LE_inside, readUInt32LE_inside by lia.
  rewrite !slice_inside by lia. cbn [bind assert].
  rewrite !replace_nul_tail_regular by assumption.
  do 2 eexists. repeat split; reflexivity.
Qed.

Lemma optin_strings_cut_at_nul_witness :
  exists h p,
    TCNetManagementHeader.read optin_datagram = Ok h
    /\ TCNetOptInPacket.read optin_datagram = Ok p
    /\ TCNetManagementHeader.nodeName h = js "NODE"
    /\ TCNetOptInPacket.vendorName p = js "PIONEER DJ CORP"
    /\ TCNetOptInPacket.appName p = js "NODE".
Proof.
  assert (TCNetOptInPacket.length <= blen optin_datagram) as Hlen
    by (vm_compute; discriminate).
  assert (regularPadding (toString_ascii (bytes optin_datagram 8 16))) as H1
    by (unfold regularPadding; vm_compute (fromNul _); repeat constructor).
  assert (regularPadding (toString_ascii (bytes optin_datagram 32 48))) as H2
    by (unfold regularPadding; vm_compute (fromNul _); repeat constructor).
  assert (regularPadding (toString_ascii (bytes optin_datagram 48 64))) as H3
    by (unfold regularPadding; vm_compute (fromNul _); repeat constructor).
  destruct (optin_strings_cut_at_nul optin_datagram Hlen H1 H2 H3)
    as (h & p & Hh & Hp & Hname & Hvendor & Happ).
  exists h, p. repeat split; [exact Hh|exact Hp|..].
  - rewrite Hname. vm_compute. reflexivity.
  - rewrite Hvendor. vm_compute. reflexivity.
  - rewrite Happ. vm_compute. reflexivity.
Defined.

(** C4. The specification trims every fixed-width string at its first
    NUL. Two decoders do otherwise. The MixerData decoder reads
    [mixerName] without the [replace] its siblings apply: the sixteen
    bytes "DJM" and thirteen NULs decode to sixteen code units. The
    expression [/\0.*$/g] of the other decoders does not match across a
    line terminator: the node name bytes "AB", NUL, line feed, four NULs
    decode to "AB", NUL, line feed, where the specification has "AB". *)
Theorem nul_trim_divergences :
  bytes mixer_datagram 29 45 = [68; 74; 77] ++ replicate 13 0
  /\ (exists p, TCNetDataPacketMixerData.read mixer_datagram = Ok p
                /\ TCNetDataPacketMixerData.mixerName p = js "DJM" ++ replicate 13 0)
  /\ untilNul (toString_ascii (bytes mixer_datagram 29 45)) = js "DJM"
  /\ bytes linebreak_name_datagram 8 16 = [65; 66; 0; 10; 0; 0; 0; 0]
  /\ (exists h, TCNetManagementHeader.read linebreak_name_datagram = Ok h
                /\ TCNetManagementHeader.nodeName h = js "AB" ++ [0; 10])
  /\ untilNul (toString_ascii (bytes linebreak_name_datagram 8 16)) = js "AB".
Proof.
  split; [vm_compute; reflexivity|]. split.
  { eexists. split; [vm_compute; reflexivity|]. reflexivity. }
  split; [vm_compute; reflexivity|]. split; [vm_compute; reflexivity|]. split.
  { eexists. split; [vm_compute; reflexivity|]. reflexivity. }
  vm_compute; reflexivity.
Qed.

(** ** Short buffers *)

Lemma slice_clamped (buf : Buffer) s e :
  0 <= s -> s <= e -> slice buf s e = bytes buf s (Z.min e (blen buf)).
Proof.
  intros Hs He. unfold slice, bytes, adjustOffset.
  destruct (Z.ltb_spec s 0); [lia|]. destruct (Z.ltb_spec e 0); [lia|].
  destruct (Z.gtb_spec (Z.min e (blen buf)) (Z.min s (blen buf))) as [Hgt|Hle].
  - replace (Z.min s (blen buf)) with s by lia. reflexivity.
  - symmetry. apply length_zero_iff_nil.
    rewrite length_take, length_drop. unfold blen in *. lia.
Qed.

Lemma metadata_read_short (buf : Buffer) :
  blen buf < 547 -> exists e, TCNetDataPacketMetadata.read buf = Throw (RangeError e).
Proof.
  intros Hlen. unfold TCNetDataPacketMetadata.read.
  destruct (Z.lt_ge_cases (blen buf) 543) as [H|H].
  - rewrite readUInt16LE_outside by lia. cbn. eauto.
  - rewrite readUInt16LE_inside by lia. cbn.
    rewrite readUInt32LE_outside by lia. cbn. eauto.
Qed.

(** C3, as the code has it. An integer accessor fails with a range error
    on every buffer shorter than the span it needs (offset + 1, 2 or 4
    bytes), so a decoder fails on every buffer that ends before its last
    integer field: the Metadata decoder on every buffer shorter than 547
    bytes. The fixed-width string and byte reads are [slice] followed by
    [toString]: [slice] never raises, it returns the bytes of the span
    that the buffer holds. *)
Theorem short_buffer_accessors (buf : Buffer) (offset : Z) :
  (blen buf < offset + 1 -> readUInt8 buf offset = Throw (RangeError offset))
  /\ (blen buf < offset + 2 -> readUInt16LE buf offset = Throw (RangeError offset))
  /\ (blen buf < offset + 4 -> readUInt32LE buf offset = Throw (RangeError offset))
  /\ (blen buf < 547 ->
      exists e, TCNetDataPacketMetadata.read buf = Throw (RangeError e))
  /\ (forall end_, 0 <= offset <= end_ ->
      slice buf offset end_ = bytes buf offset (Z.min end_ (blen buf))).
Proof.
  repeat split.
  - intros. apply readUInt8_outside. lia.
  - intros. apply readUInt16LE_outside. lia.
  - intros. apply readUInt32LE_outside. lia.
  - apply metadata_read_short.
  - intros. apply slice_clamped; lia.
Qed.

Lemma short_buffer_accessors_witness :
  blen (alloc 100) < 541 + 2
  /\ readUInt16LE (alloc 100) 541 = Throw (RangeError 541)
  /\ (exists e, TCNetDataPacketMetadata.read (alloc 100) = Throw (RangeError e))
  /\ slice (alloc 100) 29 285 = bytes (alloc 100) 29 100.
Proof.
  assert (blen (alloc 100) < 541 + 2) as H1 by (vm_compute; reflexivity).
  assert (blen (alloc 100) < 547) as H2 by (vm_compute; reflexivity).
  destruct (short_buffer_accessors (alloc 100) 541) as (_ & H16 & _ & Hmeta & _).
  destruct (short_buffer_accessors (alloc 100) 29) as (_ & _ & _ & _ & Hslice).
  split; [exact H1|]. split; [exact (H16 H1)|]. split; [exact (Hmeta H2)|].
  rewrite (Hslice 285) by lia. reflexivity.
Defined.

(** C3 as stated fails. The Status decoder returns on a 299-byte datagram,
    with an eighth layer name decoded from the 15 bytes that are left of
    the 16 asked for; the File decoder returns on a 45-byte datagram that
    declares ten payload bytes, with the three that are there. *)
Lemma short_buffer_strings_not_rejected :
  blen short_status_datagram < TCNetStatusPacket.length
  /\ (exists p, TCNetStatusPacket.read short_status_datagram = Ok p
                /\ TCNetStatusPacket.layerName p !! 7%nat = Some (replicate 15 65))
  /\ blen short_file_datagram < 42 + u32le short_file_datagram 26
  /\ (exists p, TCNetDataFilePacket.read short_file_datagram = Ok p
                /\ TCNetDataFilePacket.dataSize p = 10
                /\ TCNetDataFilePacket.fileData p = [1; 2; 3]).
Proof.
  split; [vm_compute; reflexivity|]. split.
  - eexists. split; [vm_compute; reflexivity|]. reflexivity.
  - split; [vm_compute; reflexivity|].
    eexists. split; [vm_compute; reflexivity|]. split; reflexivity.
Qed.

(** ** Metadata *)

(** C5. On every well-formed 548-byte MetaData buffer (one whose two
    string fields are regularly padded, as NUL-padded fields are) the
    decoder returns [trackArtist] and [trackTitle] as the UTF-16LE strings
    of bytes 29..285 and 285..541 cut at their first NUL, [trackKey] as
    the u16 LE at offset 541 and [trackID] as the u32 LE at offset 543.
    The buffer built from artist "Artist", title "Song", key 5 and track
    id 42 decodes to exactly these values. *)
Theorem metadata_read_layout :
  (forall buf : Buffer,
      blen buf = TCNetDataPacketMetadata.length ->
      regularPadding (toString_utf16le (bytes buf 29 285)) ->
      regularPadding (toString_utf16le (bytes buf 285 541)) ->
      TCNetDataPacketMetadata.read buf
      = Ok {| TCNetDataPacketMetadata.trackArtist :=
                untilNul (toString_utf16le (bytes buf 29 285));
              TCNetDataPacketMetadata.trackTitle :=
                untilNul (toString_utf16le (bytes buf 285 541));
              TCNetDataPacketMetadata.trackKey := u16le buf 541;
              TCNetDataPacketMetadata.trackID := u32le buf 543 |})
  /\ blen metadata_datagram = TCNetDataPacketMetadata.length
  /\ TCNetDataPacketMetadata.read metadata_datagram
     = Ok {| TCNetDataPacketMetadata.trackArtist := js "Artist";
             TCNetDataPacketMetadata.trackTitle := js "Song";
             TCNetDataPacketMetadata.trackKey := 5;
             TCNetDataPacketMetadata.trackID := 42 |}.
Proof.
  split; [|split; vm_compute; reflexivity].
  intros buf Hlen Hartist Htitle.
  unfold TCNetDataPacketMetadata.length in Hlen.
  unfold TCNetDataPacketMetadata.read.
  rewrite !slice_inside by lia.
  rewrite readUInt16LE_inside, readUInt32LE_inside by lia. cbn [bind].
  rewrite !replace_nul_tail_regular by assumption. reflexivity.
Qed.

Lemma metadata_read_layout_witness :
  blen metadata_datagram = TCNetDataPacketMetadata.length
  /\ regularPadding (toString_utf16le (bytes metadata_datagram 29 285))
  /\ regularPadding (toString_utf16le (bytes metadata_datagram 285 541))
  /\ TCNetDataPacketMetadata.read metadata_datagram
     = Ok {| TCNetDataPacketMetadata.trackArtist := js "Artist";
             TCNetDataPacketMetadata.trackTitle := js "Song";
             TCNetDataPacketMetadata.trackKey := 5;
             TCNetDataPacketMetadata.trackID := 42 |}.
Proof.
  assert (regularPadding (toString_utf16le (bytes metadata_datagram 29 285))) as Ha.
  { change (toString_utf16le (bytes metadata_datagram 29 285))
      with (js "Artist" ++ replicate 122 0).
    apply regularPadding_nul_padded. repeat constructor; discriminate. }
  assert (regularPadding (toString_utf16le (bytes metadata_datagram 285 541))) as Ht.
  { change (toString_utf16le (bytes metadata_datagram 285 541))
      with (js "Song" ++ replicate 124 0).
    apply regularPadding_nul_padded. repeat constructor; discriminate. }
  split; [reflexivity|]. split; [exact Ha|]. split; [exact Ht|].
  rewrite (proj1 metadata_read_layout metadata_datagram eq_refl Ha Ht).
  vm_compute. reflexivity.
Defined.

(** ** Waveforms *)

Section WaveformLoop.
Variable waves : Buffer.

(** The indices of [loopIndices] are those the loop condition admits. *)
Lemma loopIndices_spec i :
  i ∈ TCNetDataPacketWaveFormData.loopIndices waves <-> 0 <= i /\ 2 * i < blen waves.
Proof.
  unfold TCNetDataPacketWaveFormData.loopIndices. rewrite elem_of_seqZ.
  split; intros H.
  - split; [lia|].
    assert (i + 1 <= (blen waves + 1) / 2) as H1 by lia.
    pose proof (Z.mul_div_le (blen waves + 1) 2 ltac:(lia)). lia.
  - split; [lia|].
    assert (i + 1 <= (blen waves + 1) / 2); [|lia].
    apply Z.div_le_lower_bound; lia.
Qed.

(** A run of [S k] turns from index [i] whose last colour byte is inside
    the payload and whose last level byte is not: every turn before the
    last succeeds, and the last one throws on its level byte. *)
Lemma samples_throw_at_last (k : nat) : forall i,
  0 <= i ->
  2 * (i + Z.of_nat k) < blen waves ->
  blen waves <= 2 * (i + Z.of_nat k) + 2 ->
  mapM (TCNetDataPacketWaveFormData.readSample waves) (seqZ i (Z.of_nat (S k)))
  = Throw (RangeError ((i + Z.of_nat k + 1) * 2)).
Proof.
  induction k as [|k IH]; intros i Hi Hlo Hhi.
  - change (seqZ i (Z.of_nat 1)) with [i]. cbn [mapM].
    unfold TCNetDataPacketWaveFormData.readSample.
    rewrite readUInt8_inside by lia. cbn [bind].
    rewrite readUInt8_outside by lia. cbn [bind].
    do 2 f_equal. lia.
  - rewrite seqZ_cons by lia. cbn [mapM].
    unfold TCNetDataPacketWaveFormData.readSample at 1.
    rewrite !readUInt8_inside by lia. cbn [bind].
    replace (Z.pred (Z.of_nat (S (S k)))) with (Z.of_nat (S k)) by lia.
    rewrite IH by lia. cbn [bind]. do 2 f_equal. lia.
Qed.

(** On a payload that is not empty the loop never completes. *)
Lemma waveform_loop_throws :
  1 <= blen waves ->
  mapM (TCNetDataPacketWaveFormData.readSample waves)
       (TCNetDataPacketWaveFormData.loopIndices waves)
  = Throw (RangeError ((blen waves + 1) / 2 * 2)).
Proof.
  intros Hlen. unfold TCNetDataPacketWaveFormData.loopIndices.
  set (n := (blen waves + 1) / 2).
  assert (1 <= n) as Hn by (apply Z.div_le_lower_bound; lia).
  pose proof (Z.mul_div_le (blen waves + 1) 2 ltac:(lia)) as Hle.
  pose proof (Z.mul_succ_div_gt (blen waves + 1) 2 ltac:(lia)) as Hgt.
  fold n in Hle, Hgt.
  replace n with (Z.of_nat (S (Z.to_nat (n - 1)))) at 1 by lia.
  rewrite samples_throw_at_last by lia.
  do 2 f_equal. lia.
Qed.
End WaveformLoop.

(** X6. The waveform decoder throws a bounds error on every buffer that
    holds at least one payload byte (43 bytes or more) and declares a
    positive [dataSize]. *)
Lemma waveform_read_throws (buf : Buffer) :
  43 <= blen buf -> 1 <= u32le buf 26 ->
  exists offset, TCNetDataPacketWaveFormData.read buf = Throw (RangeError offset).
Proof.
  intros Hlen Hsize. unfold TCNetDataPacketWaveFormData.read.
  rewrite !readUInt8_inside, !readUInt32LE_inside by lia. cbn [bind].
  destruct (u8 buf 24 =? 16); cbn [bind assert];
    rewrite waveform_loop_throws by (apply slice_nonempty; lia); cbn [bind]; eauto.
Qed.

Lemma waveform_read_throws_witness :
  43 <= blen waveform_datagram /\ 1 <= u32le waveform_datagram 26
  /\ exists offset,
       TCNetDataPacketWaveFormData.read waveform_datagram = Throw (RangeError offset).
Proof.
  assert (43 <= blen waveform_datagram) as H1 by (vm_compute; discriminate).
  assert (1 <= u32le waveform_datagram 26) as H2 by (vm_compute; discriminate).
  repeat (split; [assumption|]).
  exact (waveform_read_throws waveform_datagram H1 H2).
Defined.

(** C9. A SmallWaveForm buffer of exactly the declared 2442 bytes with
    [dataSize] 2400, and a BigWaveForm buffer of exactly the declared 4884
    bytes whose [dataSize] is the whole body after offset 42, are never
    decoded: the last turn of the sample loop (index [payload length / 2 -
    1]) reads its level byte at the payload index equal to the payload
    length, and [read] throws the bounds error for that index. *)
Theorem waveform_read_min_length_throws (buf : Buffer) (dataType : Z) :
  dataType = TCNetDataPacketType.SmallWaveFormData
  \/ dataType = TCNetDataPacketType.BigWaveFormData ->
  blen buf = TCNetDataPacketWaveFormData.length dataType ->
  u32le buf 26 = blen buf - 42 ->
  let payload := bytes buf 42 (blen buf) in
  blen payload = u32le buf 26
  /\ last (TCNetDataPacketWaveFormData.loopIndices payload) = Some (blen payload / 2 - 1)
  /\ TCNetDataPacketWaveFormData.readSample payload (blen payload / 2 - 1)
     = Throw (RangeError (blen payload))
  /\ TCNetDataPacketWaveFormData.read buf = Throw (RangeError (blen payload)).
Proof.
  intros Hty Hlen Hsize payload.
  assert (blen buf = 2442 \/ blen buf = 4884) as Hcases
    by (destruct Hty as [-> | ->]; cbn in Hlen; lia).
  assert (slice buf 42 (42 + u32le buf 26) = payload) as Hslice.
  { rewrite Hsize. replace (42 + (blen buf - 42)) with (blen buf) by lia.
    apply slice_inside; lia. }
  assert (blen payload = blen buf - 42) as Hpay.
  { unfold payload, bytes, blen. rewrite length_take, length_drop.
    unfold blen in Hcases. lia. }
  assert ((blen payload + 1) / 2 * 2 = blen payload
          /\ (blen payload + 1) / 2 = blen payload / 2
          /\ 1 <= blen payload / 2) as (Heven & Hhalf & Hpos).
  { rewrite Hpay. destruct Hcases as [-> | ->]; vm_compute; intuition discriminate. }
  split; [lia|]. split; [|split].
  - unfold TCNetDataPacketWaveFormData.loopIndices. rewrite Hhalf.
    replace (blen payload / 2) with (Z.of_nat (S (Z.to_nat (blen payload / 2 - 1)))) at 1 by lia.
    rewrite seqZ_S, last_snoc. f_equal. lia.
  - unfold TCNetDataPacketWaveFormData.readSample.
    rewrite readUInt8_inside by lia. cbn [bind].
    rewrite readUInt8_outside by lia. cbn [bind]. do 2 f_equal. lia.
  - unfold TCNetDataPacketWaveFormData.read.
    rewrite !readUInt8_inside, !readUInt32LE_inside by lia. cbn [bind].
    rewrite Hslice.
    destruct (u8 buf 24 =? 16); cbn [bind assert];
      rewrite waveform_loop_throws by lia; cbn [bind]; now rewrite Heven.
Qed.

Lemma waveform_read_min_length_throws_witness :
  blen small_waveform_datagram = 2442
  /\ u32le small_waveform_datagram 26 = 2400
  /\ TCNetDataPacketWaveFormData.read small_waveform_datagram
     = Throw (RangeError 2400).
Proof.
  split; [vm_compute; reflexivity|]. split; [vm_compute; reflexivity|].
  pose proof (waveform_read_min_length_throws small_waveform_datagram
                TCNetDataPacketType.SmallWaveFormData
                (or_introl eq_refl)) as H.
  specialize (H ltac:(vm_compute; reflexivity) ltac:(vm_compute; reflexivity)).
  cbv zeta in H. destruct H as (_ & _ & _ & H).
  rewrite H. vm_compute. reflexivity.
Defined.

(** C6. The specification reads the payload of a waveform as colour/level
    pairs: sample [i] has the colour of payload byte [2i] and the level of
    payload byte [2i + 1]. The loop of [read] takes the level from payload
    byte [(i + 1) * 2]. On a datagram whose payload is 10, 200, 20, 100
    sample 0 gets level 20, not 200, sample 1 reads payload index 4, which
    is past the end, and [read] throws instead of returning two samples. *)
Theorem waveform_level_off_by_one :
  blen waveform_datagram = 46
  /\ u32le waveform_datagram 26 = 4
  /\ bytes waveform_datagram 42 46 = [10; 200; 20; 100]
  /\ TCNetDataPacketWaveFormData.readSample [10; 200; 20; 100] 0
     = Ok {| TCNetDataPacketWaveFormData.color := 10;
             TCNetDataPacketWaveFormData.level := 20 |}
  /\ TCNetDataPacketWaveFormData.readSample [10; 200; 20; 100] 1
     = Throw (RangeError 4)
  /\ TCNetDataPacketWaveFormData.read waveform_datagram = Throw (RangeError 4).
Proof. repeat split; vm_compute; reflexivity. Qed.

(** ** TimeSync *)

(** C7. For every 32-byte TimeSync buffer, [read] takes [step] from the
    byte at offset 24 and [remoteTimestamp] from the u32 LE at offset 28,
    and it takes [nodeListenerSupport] from the u16 LE at absolute offset
    2, whose two bytes lie inside the 24-byte management header (they are
    the header's major and minor version bytes) and not in the body. *)
Theorem timesync_read_layout (buf : Buffer) :
  blen buf = TCNetTimeSyncPacket.length ->
  TCNetTimeSyncPacket.read buf
  = Ok {| TCNetTimeSyncPacket.step := u8 buf 24;
          TCNetTimeSyncPacket.nodeListenerSupport := u16le buf 2;
          TCNetTimeSyncPacket.remoteTimestamp := u32le buf 28 |}
  /\ 2 + 2 <= 24
  /\ (forall h, TCNetManagementHeader.read buf = Ok h ->
        u16le buf 2 = u8 buf 2 + TCNetManagementHeader.minorVersion h * 2 ^ 8).
Proof.
  unfold TCNetTimeSyncPacket.length. intros Hlen.
  split; [|split; [lia|]].
  - unfold TCNetTimeSyncPacket.read.
    rewrite readUInt8_inside, readUInt16LE_inside, readUInt32LE_inside by lia.
    reflexivity.
  - intros h. unfold TCNetManagementHeader.read.
    rewrite !readUInt8_inside, !readUInt16LE_inside, readUInt32LE_inside by lia.
    cbn. intros [= <-]. reflexivity.
Qed.

Lemma timesync_read_layout_witness :
  blen timesync_datagram = TCNetTimeSyncPacket.length
  /\ TCNetTimeSyncPacket.read timesync_datagram
     = Ok {| TCNetTimeSyncPacket.step := 1;
             TCNetTimeSyncPacket.nodeListenerSupport := 1283;
             TCNetTimeSyncPacket.remoteTimestamp := 305419896 |}.
Proof.
  split; [reflexivity|].
  destruct (timesync_read_layout timesync_datagram eq_refl) as [H _].
  rewrite H. reflexivity.
Defined.

(** ** Keyboard *)

Lemma slice_42_2_empty (buf : Buffer) : slice buf 42 2 = [].
Proof.
  unfold slice, adjustOffset. cbn -[Z.min Z.gtb].
  destruct (Z.gtb_spec (Z.min 2 (blen buf)) (Z.min 42 (blen buf))); [lia|reflexivity].
Qed.

(** C8. The specification expects the decoder to record the two payload
    bytes of a Keyboard packet. Whenever [read] returns, [dataSize] is the
    u32 LE at offset 26 but [keyboardData] is empty, since [slice(42, 2)]
    ends before it starts; so it is on the 44-byte sample datagram whose
    payload is 65, 66. *)
Theorem keyboard_read_payload_empty :
  (forall buf : Buffer,
      match TCNetKeyboardDataPacket.read buf with
      | Ok p => TCNetKeyboardDataPacket.keyboardData p = []
                /\ TCNetKeyboardDataPacket.dataSize p = u32le buf 26
      | Throw e => blen buf < 30
      end)
  /\ blen keyboard_datagram = TCNetKeyboardDataPacket.length
  /\ bytes keyboard_datagram 42 44 = [65; 66]
  /\ TCNetKeyboardDataPacket.read keyboard_datagram
     = Ok {| TCNetKeyboardDataPacket.dataSize := 2;
             TCNetKeyboardDataPacket.keyboardData := [] |}.
Proof.
  split; [|repeat split; reflexivity].
  intros buf. unfold TCNetKeyboardDataPacket.read.
  destruct (Z.le_gt_cases 30 (blen buf)) as [Hlen|Hlen].
  - rewrite readUInt32LE_inside by lia. cbn.
    split; [apply slice_42_2_empty|reflexivity].
  - rewrite readUInt32LE_outside by lia. cbn. lia.
Qed.

(** ** Which classes serialise *)

Lemma andThen_range w1 w2 :
  throwsOnlyRangeErrors w1 -> throwsOnlyRangeErrors w2 ->
  throwsOnlyRangeErrors (w1 ;; w2).
Proof.
  intros H1 H2 buf e buf'. unfold andThen.
  destruct (w1 buf) as [b1|e1 b1] eqn:E1.
  - apply H2.
  - intros [= <- <-]. eapply H1, E1.
Qed.

Lemma assertW_range c : throwsOnlyRangeErrors (assertW c).
Proof. intros buf e buf'. discriminate. Qed.

Lemma writeUInt8_range v off : throwsOnlyRangeErrors (writeUInt8 v off).
Proof.
  intros buf e buf'. unfold writeUInt8.
  destruct (negb _); [intros [= <- _]; exact I|].
  destruct (byteAt _ _); [discriminate|intros [= <- _]; exact I].
Qed.

Lemma writeUInt16LE_range v off : throwsOnlyRangeErrors (writeUInt16LE v off).
Proof.
  intros buf e buf'. unfold writeUInt16LE.
  destruct (negb _); [intros [= <- _]; exact I|].
  destruct (byteAt _ _); [destruct (byteAt _ _)|];
    first [discriminate|intros [= <- _]; exact I].
Qed.

Lemma writeUInt32LE_range v off : throwsOnlyRangeErrors (writeUInt32LE v off).
Proof.
  intros buf e buf'. unfold writeUInt32LE.
  destruct (negb _); [intros [= <- _]; exact I|].
  destruct (byteAt _ _); [destruct (byteAt _ _)|];
    first [discriminate|intros [= <- _]; exact I].
Qed.

Lemma write_ascii_range s off : throwsOnlyRangeErrors (write_ascii s off).
Proof.
  intros buf e buf'. unfold write_ascii.
  destruct (inRange _ _ _); [discriminate|intros [= <- _]; exact I].
Qed.

Create HintDb writers.
#[local] Hint Resolve andThen_range assertW_range writeUInt8_range
  writeUInt16LE_range writeUInt32LE_range write_ascii_range : writers.

Lemma header_write_range h : throwsOnlyRangeErrors (TCNetManagementHeader.write h).
Proof. unfold TCNetManagementHeader.write. auto 20 with writers. Qed.

Lemma data_write_range p : throwsOnlyRangeErrors (TCNetDataPacket.write p).
Proof. unfold TCNetDataPacket.write. auto 10 with writers. Qed.

(** C10. [write] is implemented by the management header and by the OptIn,
    OptOut, Request and base Data classes (the Data subclasses that do not
    override it inherit the base one): these raise nothing but the range
    errors of the buffer accessors, and they store the sample packets into
    a fresh buffer of the packet's length. For every packet of class
    Status, Time, TimeSync, Error, Metrics, Metadata, MixerData, Control,
    Text, Keyboard, File or ApplicationData, [write] throws
    [Error("not supported!")] whatever the packet and the buffer, and the
    buffer is as it was. *)
Theorem write_supported_classes (packet : TCNetPacket) (buf : Buffer) :
  (forall h, throwsOnlyRangeErrors (TCNetManagementHeader.write h))
  /\ TCNetManagementHeader.write sample_header_fields (alloc 24)
     = Done (sample_header 2)
  /\ (exists buf', write (OptIn optin_packet) (alloc 68) = Done buf')
  /\ (exists buf', write (OptOut optout_packet) (alloc 28) = Done buf')
  /\ (exists buf', write (Request request_packet) (alloc 26) = Done buf')
  /\ (exists buf', write (Data data_packet) (alloc 26) = Done buf')
  /\ if writeUnsupported packet
     then write packet buf = Thrown (Error "not supported!") buf
     else throwsOnlyRangeErrors (write packet).
Proof.
  split; [apply header_write_range|].
  split; [vm_compute; reflexivity|].
  do 4 (split; [eexists; vm_compute; reflexivity|]).
  destruct packet; cbn; try reflexivity.
  - unfold TCNetOptInPacket.write. auto 20 with writers.
  - unfold TCNetOptOutPacket.write. auto with writers.
  - unfold TCNetRequestPacket.write. auto 10 with writers.
  - apply data_write_range.
  - apply data_write_range.
  - apply data_write_range.
  - apply data_write_range.
Qed.

(** ** Round trips *)

(** *** Stores followed by loads *)

Lemma blen_insert (buf : Buffer) i v : blen (<[i := v]> buf) = blen buf.
Proof. unfold blen. now rewrite length_insert. Qed.

Lemma u8_insert_eq (buf : Buffer) i v j :
  0 <= i < blen buf -> j = i -> u8 (<[Z.to_nat i := v]> buf) j = v.
Proof.
  intros Hi ->. unfold u8, blen in *. rewrite nth_lookup.
  rewrite list_lookup_insert_eq by lia. reflexivity.
Qed.

Lemma u8_insert_ne (buf : Buffer) i v j :
  0 <= i -> 0 <= j -> j <> i -> u8 (<[Z.to_nat i := v]> buf) j = u8 buf j.
Proof.
  intros Hi Hj Hne. unfold u8. rewrite !nth_lookup.
  rewrite list_lookup_insert_ne by lia. reflexivity.
Qed.

Lemma length_write_bytes bs : forall off (buf : Buffer),
  length (write_bytes bs off buf) = length buf.
Proof.
  induction bs as [|b rest IH]; intros off buf; cbn [write_bytes]; [reflexivity|].
  now rewrite IH, length_insert.
Qed.

Lemma blen_write_bytes bs off (buf : Buffer) :
  blen (write_bytes bs off buf) = blen buf.
Proof. unfold blen. now rewrite length_write_bytes. Qed.

Lemma nth_write_bytes_outside bs : forall off (buf : Buffer) j,
  (j < off \/ off + length bs <= j)%nat ->
  nth j (write_bytes bs off buf) 0 = nth j buf 0.
Proof.
  induction bs as [|b rest IH]; intros off buf j Hj;
    cbn [write_bytes length] in *; [reflexivity|].
  rewrite IH by lia. rewrite !nth_lookup.
  rewrite list_lookup_insert_ne by lia. reflexivity.
Qed.

Lemma nth_write_bytes_inside bs : forall off (buf : Buffer) j,
  (off <= j < off + length bs)%nat -> (j < length buf)%nat ->
  nth j (write_bytes bs off buf) 0 = nth (j - off) bs 0.
Proof.
  induction bs as [|b rest IH]; intros off buf j Hj Hlen;
    cbn [write_bytes length] in *; [lia|].
  destruct (decide (j = off)) as [->|Hne].
  - rewrite nth_write_bytes_outside by lia.
    rewrite nth_lookup, list_lookup_insert_eq by lia.
    now rewrite Nat.sub_diag.
  - rewrite IH by (rewrite ?length_insert; lia).
    replace (j - off)%nat with (S (j - S off)) by lia. reflexivity.
Qed.

Lemma u8_write_bytes_outside bs off (buf : Buffer) j :
  0 <= j -> j < Z.of_nat off \/ Z.of_nat off + Z.of_nat (length bs) <= j ->
  u8 (write_bytes bs off buf) j = u8 buf j.
Proof. intros Hj H. unfold u8. apply nth_write_bytes_outside. lia. Qed.

(** The bytes of a span, from the bytes at its offsets. *)
Lemma bytes_ext (buf : Buffer) s e (bs : list Z) :
  0 <= s -> e <= blen buf -> Z.of_nat (length bs) = e - s ->
  (forall k : nat, (k < length bs)%nat -> u8 buf (s + Z.of_nat k) = nth k bs 0) ->
  bytes buf s e = bs.
Proof.
  intros Hs He Hlen Hnth. unfold bytes, blen in *.
  apply nth_ext with (d := 0) (d' := 0).
  - rewrite length_take, length_drop. lia.
  - intros n Hn. rewrite length_take, length_drop in Hn.
    rewrite <- Hnth by lia. unfold u8.
    rewrite !nth_lookup, lookup_take_lt, lookup_drop by lia.
    do 2 f_equal. lia.
Qed.

Lemma andThen_Done (w1 w2 : writer) buf buf1 :
  w1 buf = Done buf1 -> (w1 ;; w2) buf = w2 buf1.
Proof. intros H. unfold andThen. now rewrite H. Qed.

Lemma writeUInt8_inside v off (buf : Buffer) :
  isU8 v -> 0 <= off < blen buf ->
  writeUInt8 v off buf = Done (<[Z.to_nat off := v]> buf).
Proof.
  intros Hv Hoff. unfold writeUInt8, inRange, isU8 in *.
  destruct (Z.leb_spec 0 v); [|lia]. destruct (Z.leb_spec v 255); [|lia].
  cbn. now rewrite byteAt_inside.
Qed.

Lemma writeUInt16LE_inside v off (buf : Buffer) :
  isU16 v -> 0 <= off -> off + 2 <= blen buf ->
  writeUInt16LE v off buf
  = Done (<[Z.to_nat (off + 1) := v / 2 ^ 8]> (<[Z.to_nat off := v mod 2 ^ 8]> buf)).
Proof.
  intros Hv Hoff Hlen. unfold writeUInt16LE, inRange, isU16 in *.
  destruct (Z.leb_spec 0 v); [|lia]. destruct (Z.leb_spec v 65535); [|lia].
  cbn [andb negb]. now rewrite !byteAt_inside by lia.
Qed.

Lemma writeUInt32LE_inside v off (buf : Buffer) :
  isU32 v -> 0 <= off -> off + 4 <= blen buf ->
  writeUInt32LE v off buf
  = Done (<[Z.to_nat (off + 3) := v / 2 ^ 24]>
         (<[Z.to_nat (off + 2) := (v / 2 ^ 16) mod 2 ^ 8]>
         (<[Z.to_nat (off + 1) := (v / 2 ^ 8) mod 2 ^ 8]>
         (<[Z.to_nat off := v mod 2 ^ 8]> buf)))).
Proof.
  intros Hv Hoff Hlen. unfold writeUInt32LE, inRange, isU32 in *.
  destruct (Z.leb_spec 0 v); [|lia]. destruct (Z.leb_spec v 4294967295); [|lia].
  cbn [andb negb]. now rewrite !byteAt_inside by lia.
Qed.

Lemma write_ascii_inside s off (buf : Buffer) :
  0 <= off <= blen buf ->
  write_ascii s off buf
  = Done (write_bytes (map (fun c => Z.land c 255) s) (Z.to_nat off) buf).
Proof.
  intros Hoff. unfold write_ascii, inRange.
  destruct (Z.leb_spec 0 off); [|lia]. destruct (Z.leb_spec off (blen buf)); [|lia].
  reflexivity.
Qed.

Lemma le16_join v : v mod 2 ^ 8 + v / 2 ^ 8 * 2 ^ 8 = v.
Proof. pose proof (Z.div_mod v (2 ^ 8) ltac:(lia)). lia. Qed.

Lemma le32_join v :
  v mod 2 ^ 8 + (v / 2 ^ 8) mod 2 ^ 8 * 2 ^ 8 + (v / 2 ^ 16) mod 2 ^ 8 * 2 ^ 16
  + v / 2 ^ 24 * 2 ^ 24 = v.
Proof.
  pose proof (Z.div_mod v (2 ^ 8) ltac:(lia)).
  pose proof (Z.div_mod (v / 2 ^ 8) (2 ^ 8) ltac:(lia)).
  pose proof (Z.div_mod (v / 2 ^ 16) (2 ^ 8) ltac:(lia)).
  replace (v / 2 ^ 16) with (v / 2 ^ 8 / 2 ^ 8) in *
    by (rewrite Z.div_div by lia; reflexivity).
  replace (v / 2 ^ 24) with (v / 2 ^ 8 / 2 ^ 8 / 2 ^ 8)
    by (rewrite !Z.div_div by lia; reflexivity).
  lia.
Qed.

(** Side conditions on lengths and offsets. *)
Ltac bounds :=
  repeat first [rewrite blen_insert | rewrite blen_write_bytes]; cbn; lia.

Lemma assertW_then c (w : writer) buf : (assertW c ;; w) buf = w buf.
Proof. reflexivity. Qed.

Lemma writeUInt8_then v off (w : writer) (buf : Buffer) :
  isU8 v -> 0 <= off < blen buf ->
  (writeUInt8 v off ;; w) buf = w (<[Z.to_nat off := v]> buf).
Proof. intros Hv Hoff. apply andThen_Done. now apply writeUInt8_inside. Qed.

Lemma writeUInt16LE_then v off (w : writer) (buf : Buffer) :
  isU16 v -> 0 <= off -> off + 2 <= blen buf ->
  (writeUInt16LE v off ;; w) buf
  = w (<[Z.to_nat (off + 1) := v / 2 ^ 8]> (<[Z.to_nat off := v mod 2 ^ 8]> buf)).
Proof. intros Hv Hoff Hlen. apply andThen_Done. now apply writeUInt16LE_inside. Qed.

Lemma write_ascii_then s off (w : writer) (buf : Buffer) :
  0 <= off <= blen buf ->
  (write_ascii s off ;; w) buf
  = w (write_bytes (map (fun c => Z.land c 255) s) (Z.to_nat off) buf).
Proof. intros Hoff. apply andThen_Done. now apply write_ascii_inside. Qed.

(** A store into the current buffer that is known to succeed. *)
Ltac store :=
  first
    [ rewrite assertW_then
    | rewrite writeUInt8_then by first [assumption | bounds]
    | rewrite writeUInt16LE_then by first [assumption | bounds]
    | rewrite write_ascii_then by bounds
    | rewrite writeUInt8_inside by first [assumption | bounds]
    | rewrite writeUInt16LE_inside by first [assumption | bounds]
    | rewrite writeUInt32LE_inside by first [assumption | bounds]
    | rewrite write_ascii_inside by bounds ].

(** The byte at an offset, seen through the stores made after it. *)
Ltac load :=
  repeat first
    [ rewrite u8_insert_eq by bounds
    | rewrite u8_insert_ne by bounds
    | rewrite u8_write_bytes_outside by bounds ].

(** *** OptOut, Request, Data *)

(** X2. An OptOut packet whose two fields are u16, written into a buffer
    of 28 bytes or more, is read back unchanged. *)
Lemma optout_roundtrip (p : TCNetOptOutPacket.t) (buf : Buffer) :
  isU16 (TCNetOptOutPacket.nodeCount p) ->
  isU16 (TCNetOptOutPacket.nodeListenerPort p) ->
  TCNetOptOutPacket.length <= blen buf ->
  exists buf', TCNetOptOutPacket.write p buf = Done buf'
               /\ blen buf' = blen buf
               /\ TCNetOptOutPacket.read buf' = Ok p.
Proof.
  destruct p as [count port]. unfold TCNetOptOutPacket.length. cbn.
  intros Hcount Hport Hlen. unfold TCNetOptOutPacket.write. cbn.
  repeat store. eexists. split; [reflexivity|]. split; [bounds|].
  unfold TCNetOptOutPacket.read.
  rewrite !readUInt16LE_inside by bounds. cbn [bind].
  unfold u16le. load. now rewrite !le16_join.
Qed.

Lemma optout_roundtrip_witness :
  isU16 2 /\ isU16 65023 /\ TCNetOptOutPacket.length <= blen (alloc 28)
  /\ exists buf', TCNetOptOutPacket.write optout_packet (alloc 28) = Done buf'
                  /\ blen buf' = blen (alloc 28)
                  /\ TCNetOptOutPacket.read buf' = Ok optout_packet.
Proof.
  assert (isU16 2) as H1 by (unfold isU16; lia).
  assert (isU16 65023) as H2 by (unfold isU16; lia).
  assert (TCNetOptOutPacket.length <= blen (alloc 28)) as H3 by (vm_compute; discriminate).
  repeat (split; [assumption|]).
  exact (optout_roundtrip optout_packet (alloc 28) H1 H2 H3).
Defined.

(** X3. A Request packet whose two fields are u8, written into a buffer
    of 26 bytes or more, is read back unchanged. *)
Lemma request_roundtrip (p : TCNetRequestPacket.t) (buf : Buffer) :
  isU8 (TCNetRequestPacket.dataType p) ->
  isU8 (TCNetRequestPacket.layer p) ->
  TCNetRequestPacket.length <= blen buf ->
  exists buf', TCNetRequestPacket.write p buf = Done buf'
               /\ blen buf' = blen buf
               /\ TCNetRequestPacket.read buf' = Ok p.
Proof.
  destruct p as [dataType layer]. unfold TCNetRequestPacket.length. cbn.
  intros Htype Hlayer Hlen. unfold TCNetRequestPacket.write. cbn.
  repeat store. eexists. split; [reflexivity|]. split; [bounds|].
  unfold TCNetRequestPacket.read.
  rewrite !readUInt8_inside by bounds. cbn [bind]. load. reflexivity.
Qed.

Lemma request_roundtrip_witness :
  isU8 4 /\ isU8 2 /\ TCNetRequestPacket.length <= blen (alloc 26)
  /\ exists buf', TCNetRequestPacket.write request_packet (alloc 26) = Done buf'
                  /\ blen buf' = blen (alloc 26)
                  /\ TCNetRequestPacket.read buf' = Ok request_packet.
Proof.
  assert (isU8 4) as H1 by (unfold isU8; lia).
  assert (isU8 2) as H2 by (unfold isU8; lia).
  assert (TCNetRequestPacket.length <= blen (alloc 26)) as H3 by (vm_compute; discriminate).
  repeat (split; [assumption|]).
  exact (request_roundtrip request_packet (alloc 26) H1 H2 H3).
Defined.

(** X4. The [dataType] and [layer] bytes of a base Data packet, both u8,
    written into a buffer of 26 bytes or more, are read back unchanged. *)
Lemma data_roundtrip (p : TCNetDataPacket.t) (buf : Buffer) :
  isU8 (TCNetDataPacket.dataType p) ->
  isU8 (TCNetDataPacket.layer p) ->
  26 <= blen buf ->
  exists buf', TCNetDataPacket.write p buf = Done buf'
               /\ blen buf' = blen buf
               /\ TCNetDataPacket.read buf' = Ok p.
Proof.
  destruct p as [dataType layer]. cbn.
  intros Htype Hlayer Hlen. unfold TCNetDataPacket.write. cbn.
  repeat store. eexists. split; [reflexivity|]. split; [bounds|].
  unfold TCNetDataPacket.read.
  rewrite !readUInt8_inside by bounds. cbn [bind]. load. reflexivity.
Qed.

Lemma data_roundtrip_witness :
  isU8 150 /\ isU8 1 /\ 26 <= blen (alloc 26)
  /\ exists buf', TCNetDataPacket.write data_packet (alloc 26) = Done buf'
                  /\ blen buf' = blen (alloc 26)
                  /\ TCNetDataPacket.read buf' = Ok data_packet.
Proof.
  assert (isU8 150) as H1 by (unfold isU8; lia).
  assert (isU8 1) as H2 by (unfold isU8; lia).
  assert (26 <= blen (alloc 26)) as H3 by (vm_compute; discriminate).
  repeat (split; [assumption|]).
  exact (data_roundtrip data_packet (alloc 26) H1 H2 H3).
Defined.

(** *** Strings stored in a fixed-width field *)

Lemma bytes_insert_outside (buf : Buffer) i v s e :
  0 <= s -> s <= e -> 0 <= i -> i < s \/ e <= i ->
  bytes (<[Z.to_nat i := v]> buf) s e = bytes buf s e.
Proof.
  intros Hs He Hi [Hlt|Hge]; unfold bytes.
  - now rewrite drop_insert_lt by lia.
  - rewrite drop_insert_ge by lia. now rewrite take_insert_ge by lia.
Qed.

Lemma bytes_write_bytes bs s e (buf : Buffer) :
  0 <= s -> e = s + Z.of_nat (length bs) -> e <= blen buf ->
  bytes (write_bytes bs (Z.to_nat s) buf) s e = bs.
Proof.
  intros Hs -> He. apply bytes_ext; [lia|bounds|lia|].
  intros k Hk. unfold u8, blen in *.
  rewrite nth_write_bytes_inside by lia. f_equal. lia.
Qed.

Lemma length_padEnd s width :
  (length s <= width)%nat -> length (padEnd s width) = width.
Proof. intros H. unfold padEnd. rewrite length_app, length_replicate. lia. Qed.

Lemma land_255_ascii c : 0 <= c <= 127 -> Z.land (Z.land c 255) 127 = c.
Proof.
  intros Hc. change 255 with (Z.ones 8). change 127 with (Z.ones 7).
  rewrite !Z.land_ones by lia.
  rewrite (Z.mod_small c (2 ^ 8)) by lia. apply Z.mod_small. lia.
Qed.

(** A string without NUL, padded, stored as ASCII and decoded again. *)
Lemma ascii_field_roundtrip s width :
  asciiText s width ->
  replace_nul_tail
    (toString_ascii (map (fun c => Z.land c 255) (padEnd s width))) = s.
Proof.
  intros [Hs _]. unfold toString_ascii, padEnd.
  rewrite map_map, map_app.
  replace (map _ (replicate (width - length s) 0)) with (replicate (width - length s) 0).
  2:{ induction (width - length s)%nat; cbn; [reflexivity|]. now f_equal. }
  replace (map (fun x => Z.land (Z.land x 255) 127) s) with s.
  2:{ induction Hs as [|c t Hc _ IH]; cbn; [reflexivity|].
      rewrite land_255_ascii by lia. now f_equal. }
  apply replace_nul_tail_cases. eapply Forall_impl; [exact Hs|]. cbn. lia.
Qed.

(** *** The management header *)

(** X1. A management header whose integers fit their widths and whose
    node name is at most 8 ASCII characters without NUL, written into a
    buffer of 24 bytes or more, is read back unchanged. *)
Lemma header_roundtrip (h : TCNetManagementHeader.t) (buf : Buffer) :
  headerWithinWidths h ->
  24 <= blen buf ->
  exists buf', TCNetManagementHeader.write h buf = Done buf'
               /\ blen buf' = blen buf
               /\ TCNetManagementHeader.read buf' = Ok h.
Proof.
  intros (HnodeId & Hminor & Htype & Hname & Hseq & HnodeType & Hoptions & Htimestamp) Hlen.
  assert (isU8 TCNetManagementHeader.MAJOR_VERSION) as Hmajor
    by (vm_compute; intuition discriminate).
  pose proof (length_padEnd _ 8 (proj2 Hname)) as Hpad.
  unfold TCNetManagementHeader.write.
  repeat store. eexists. split; [reflexivity|]. split; [bounds|].
  unfold TCNetManagementHeader.read.
  rewrite !readUInt8_inside, !readUInt16LE_inside, readUInt32LE_inside by bounds.
  cbn [bind assert]. rewrite slice_inside by bounds.
  rewrite !bytes_insert_outside by lia.
  rewrite bytes_write_bytes by (rewrite ?length_map, ?Hpad; bounds).
  rewrite (ascii_field_roundtrip _ 8 Hname).
  unfold u16le, u32le. load. rewrite !le16_join, le32_join.
  now destruct h.
Qed.

Lemma header_roundtrip_witness :
  headerWithinWidths sample_header_fields
  /\ 24 <= blen (alloc 24)
  /\ exists buf', TCNetManagementHeader.write sample_header_fields (alloc 24) = Done buf'
                  /\ blen buf' = blen (alloc 24)
                  /\ TCNetManagementHeader.read buf' = Ok sample_header_fields.
Proof.
  assert (headerWithinWidths sample_header_fields) as Hw.
  { unfold headerWithinWidths, isU8, isU16, isU32, asciiText. cbn.
    repeat split; try lia. repeat constructor; vm_compute; discriminate. }
  assert (24 <= blen (alloc 24)) as Hlen by (vm_compute; discriminate).
  split; [exact Hw|]. split; [exact Hlen|].
  exact (header_roundtrip sample_header_fields (alloc 24) Hw Hlen).
Defined.

(** *** OptIn *)

(** C1. The specification asks that reading what [write] produced gives
    the packet back, and names the three version bytes of OptIn at offsets
    64, 65 and 66. [TCNetOptInPacket.write] calls [writeUInt8] with its
    arguments exchanged: for version 3.5.1 it stores the bytes 64, 65, 66
    at offsets 3, 5 and 1, leaves offsets 64..66 as they were, and [read]
    returns version 0.0.0. *)
Theorem optin_versions_not_recovered :
  TCNetOptInPacket.write optin_packet (alloc 68) = Done optin_written
  /\ (u8 optin_written 3, u8 optin_written 5, u8 optin_written 1) = (64, 65, 66)
  /\ (u8 optin_written 64, u8 optin_written 65, u8 optin_written 66) = (0, 0, 0)
  /\ TCNetOptInPacket.read optin_written
     = Ok {| TCNetOptInPacket.nodeCount := 1;
             TCNetOptInPacket.nodeListenerPort := 65023;
             TCNetOptInPacket.uptime := 10;
             TCNetOptInPacket.vendorName := js "PIONEER DJ CORP";
             TCNetOptInPacket.appName := js "NODE";
             TCNetOptInPacket.majorVersion := 0;
             TCNetOptInPacket.minorVersion := 0;
             TCNetOptInPacket.bugVersion := 0 |}
  /\ TCNetOptInPacket.read optin_written <> Ok optin_packet.
Proof.
  repeat split; try (vm_compute; reflexivity).
  intros H. vm_compute in H. discriminate.
Qed.

(** ** Which buffers each decoder accepts *)

Lemma is_ok_bind {A B} (m : result A) (k : A -> result B) :
  is_ok (bind m k) = true <-> exists a, m = Ok a /\ is_ok (k a) = true.
Proof.
  destruct m as [a|e]; cbn.
  - split; [eauto|]. now intros (a' & [= <-] & H).
  - split; [discriminate|]. now intros (a' & [=] & _).
Qed.

Lemma readUInt8_Ok (buf : Buffer) off v :
  readUInt8 buf off = Ok v -> 0 <= off < blen buf /\ v = u8 buf off.
Proof.
  intros H. destruct (Z.lt_ge_cases off 0) as [Hn|Hp];
    [rewrite readUInt8_outside in H by lia; discriminate|].
  destruct (Z.lt_ge_cases off (blen buf)) as [Hin|Hout];
    [|rewrite readUInt8_outside in H by lia; discriminate].
  rewrite readUInt8_inside in H by lia. now injection H as <-.
Qed.

Lemma readUInt16LE_Ok (buf : Buffer) off v :
  readUInt16LE buf off = Ok v -> 0 <= off /\ off + 2 <= blen buf /\ v = u16le buf off.
Proof.
  intros H. destruct (Z.lt_ge_cases off 0) as [Hn|Hp];
    [rewrite readUInt16LE_outside in H by lia; discriminate|].
  destruct (Z.le_gt_cases (off + 2) (blen buf)) as [Hin|Hout];
    [|rewrite readUInt16LE_outside in H by lia; discriminate].
  rewrite readUInt16LE_inside in H by lia. now injection H as <-.
Qed.

Lemma readUInt32LE_Ok (buf : Buffer) off v :
  readUInt32LE buf off = Ok v -> 0 <= off /\ off + 4 <= blen buf /\ v = u32le buf off.
Proof.
  intros H. destruct (Z.lt_ge_cases off 0) as [Hn|Hp];
    [rewrite readUInt32LE_outside in H by lia; discriminate|].
  destruct (Z.le_gt_cases (off + 4) (blen buf)) as [Hin|Hout];
    [|rewrite readUInt32LE_outside in H by lia; discriminate].
  rewrite readUInt32LE_inside in H by lia. now injection H as <-.
Qed.

Lemma mapM_Ok {A B} (f : A -> result B) (l : list A) r :
  mapM f l = Ok r -> forall x, x ∈ l -> exists y, f x = Ok y.
Proof.
  revert r. induction l as [|a l IH]; intros r H x Hx; [now apply elem_of_nil in Hx|].
  cbn [mapM] in H. destruct (f a) as [y|e] eqn:Ea; [|discriminate].
  cbn [bind] in H. destruct (mapM f l) as [ys|e] eqn:El; [|discriminate].
  apply elem_of_cons in Hx as [->|Hx]; [eauto|]. eapply IH; eauto.
Qed.

Lemma mapM_map {A B} (f : A -> result B) (g : A -> B) (l : list A) :
  (forall x, x ∈ l -> f x = Ok (g x)) -> mapM f l = Ok (map g l).
Proof.
  induction l as [|a l IH]; intros H; [reflexivity|].
  cbn [mapM map]. rewrite H by apply list_elem_of_here. cbn [bind].
  rewrite IH by (intros x Hx; apply H; now apply list_elem_of_further).
  reflexivity.
Qed.

(** The facts a successful run of a decoder gives about the buffer. *)
Ltac ok_facts H :=
  repeat match goal with
    | H' : is_ok (bind _ _) = true |- _ =>
        let a := fresh "a" in let Ha := fresh "Ha" in
        apply is_ok_bind in H' as (a & Ha & H')
    | H' : bind _ _ = Ok _ |- _ =>
        apply (f_equal is_ok) in H'; cbn [is_ok] in H'
    | Ha : readUInt8 _ _ = Ok _ |- _ => apply readUInt8_Ok in Ha as [? ?]
    | Ha : readUInt16LE _ _ = Ok _ |- _ => apply readUInt16LE_Ok in Ha as (? & ? & ?)
    | Ha : readUInt32LE _ _ = Ok _ |- _ => apply readUInt32LE_Ok in Ha as (? & ? & ?)
    end.

(** Every read of a decoder on a buffer that holds its whole span. *)
Ltac all_inside :=
  rewrite ?readUInt8_inside, ?readUInt16LE_inside, ?readUInt32LE_inside by lia;
  cbn [bind assert is_ok].

(** A successful [mapM] over the layers gives the facts of one layer. *)
Ltac layer_facts Ha n :=
  let y := fresh "y" in let Hy := fresh "Hy" in
  destruct (mapM_Ok _ _ _ Ha n ltac:(apply elem_of_seqZ; lia)) as [y Hy];
  apply (f_equal is_ok) in Hy; cbn [is_ok] in Hy.

(** The decoders of the parts of a packet. *)
Create HintDb decoders.
#[local] Hint Unfold TCNetTimePacket.readLayer TCNetTimecode.read
  MixerChannelData.parse TCNetDataPacketMixerData.readFlag : decoders.

(** A [mapM] over the layers of a buffer that holds them all. *)
Ltac layers_inside g :=
  erewrite (mapM_map _ g)
    by (intros ? ?%elem_of_seqZ; cbv beta; autounfold with decoders;
        all_inside; reflexivity).

(** X8. The decoders of the management packets accept exactly the buffers
    that reach their last integer field: 24 bytes for the header, 67 for
    OptIn, 28 for OptOut, 85 for Status, 26 for Request, 154 for Time, 32
    for TimeSync and 30 for the error notification. For OptOut, Request,
    Time, TimeSync and the error notification this is the declared
    [length()]; OptIn is accepted one byte short of its 68, and Status 215
    bytes short of its 300. *)
Lemma management_decoders_accept (buf : Buffer) :
  (is_ok (TCNetManagementHeader.read buf) = true <-> 24 <= blen buf)
  /\ (is_ok (TCNetOptInPacket.read buf) = true <-> TCNetOptInPacket.length - 1 <= blen buf)
  /\ (is_ok (TCNetOptOutPacket.read buf) = true <-> TCNetOptOutPacket.length <= blen buf)
  /\ (is_ok (TCNetStatusPacket.read buf) = true <-> 85 <= blen buf)
  /\ (is_ok (TCNetRequestPacket.read buf) = true <-> TCNetRequestPacket.length <= blen buf)
  /\ (is_ok (TCNetTimePacket.read buf) = true <-> TCNetTimePacket.length <= blen buf)
  /\ (is_ok (TCNetTimeSyncPacket.read buf) = true <-> TCNetTimeSyncPacket.length <= blen buf)
  /\ (is_ok (TCNetErrorNotification.read buf) = true
      <-> TCNetErrorNotification.length <= blen buf).
Proof.
  unfold TCNetOptInPacket.length, TCNetOptOutPacket.length, TCNetRequestPacket.length,
    TCNetTimePacket.length, TCNetTimeSyncPacket.length, TCNetErrorNotification.length.
  repeat split.
  - unfold TCNetManagementHeader.read. intros H. ok_facts H. lia.
  - intros H. unfold TCNetManagementHeader.read. all_inside. reflexivity.
  - unfold TCNetOptInPacket.read. intros H. ok_facts H. lia.
  - intros H. unfold TCNetOptInPacket.read. all_inside. reflexivity.
  - unfold TCNetOptOutPacket.read. intros H. ok_facts H. lia.
  - intros H. unfold TCNetOptOutPacket.read. all_inside. reflexivity.
  - unfold TCNetStatusPacket.read. intros H. ok_facts H. lia.
  - intros H. unfold TCNetStatusPacket.read. all_inside.
    layers_inside (fun n => u8 buf (34 + n)). cbn [bind].
    layers_inside (fun n => u8 buf (42 + n)). cbn [bind].
    layers_inside (fun n => u32le buf (50 + n * 4)). all_inside. reflexivity.
  - unfold TCNetRequestPacket.read. intros H. ok_facts H. lia.
  - intros H. unfold TCNetRequestPacket.read. all_inside. reflexivity.
  - unfold TCNetTimePacket.read. intros H. ok_facts H.
    match goal with Hm : mapM _ _ = Ok _ |- _ => layer_facts Hm 7 end.
    unfold TCNetTimePacket.readLayer, TCNetTimecode.read in Hy.
    ok_facts Hy. lia.
  - intros H. unfold TCNetTimePacket.read.
    layers_inside (fun n =>
      TCNetTimePacket.mkLayer (u32le buf (24 + n * 4)) (u32le buf (56 + n * 4))
        (u8 buf (88 + n)) (u8 buf (96 + n))
        (TCNetTimecode.mk (u8 buf (106 + n * 6 + 0)) (u8 buf (106 + n * 6 + 1))
           (u8 buf (106 + n * 6 + 2)) (u8 buf (106 + n * 6 + 3))
           (u8 buf (106 + n * 6 + 4)) (u8 buf (106 + n * 6 + 5)))).
    all_inside. reflexivity.
  - unfold TCNetTimeSyncPacket.read. intros H. ok_facts H. lia.
  - intros H. unfold TCNetTimeSyncPacket.read. all_inside. reflexivity.
  - unfold TCNetErrorNotification.read. intros H. ok_facts H. lia.
  - intros H. unfold TCNetErrorNotification.read. all_inside. reflexivity.
Qed.

Lemma slice_from_drop (buf : Buffer) s :
  0 <= s -> slice_from buf s = drop (Z.to_nat s) buf.
Proof.
  intros Hs. unfold slice_from, slice, adjustOffset.
  pose proof (Nat2Z.is_nonneg (length buf)) as Hlen. fold (blen buf) in Hlen.
  destruct (Z.ltb_spec s 0); [lia|]. destruct (Z.ltb_spec (blen buf) 0); [lia|].
  destruct (Z.gtb_spec (Z.min (blen buf) (blen buf)) (Z.min s (blen buf))) as [Hgt|Hle].
  - replace (Z.min s (blen buf)) with s by lia. apply take_ge.
    rewrite length_drop. unfold blen in *. lia.
  - symmetry. apply drop_ge. unfold blen in *. lia.
Qed.

Lemma blen_slice_from (buf : Buffer) s :
  0 <= s -> blen (slice_from buf s) = Z.max 0 (blen buf - s).
Proof.
  intros Hs. rewrite slice_from_drop by lia. unfold blen.
  rewrite length_drop. lia.
Qed.

Lemma u8_slice_from (buf : Buffer) s k :
  0 <= s -> 0 <= k -> u8 (slice_from buf s) k = u8 buf (s + k).
Proof.
  intros Hs Hk. rewrite slice_from_drop by lia. unfold u8.
  rewrite !nth_lookup, lookup_drop. do 2 f_equal. lia.
Qed.

(** The colour of a cue, read through the slice that starts at it. *)
Lemma cue_color_inside (buf : Buffer) s :
  0 <= s -> s + 3 <= blen buf ->
  CueColor.fromBuffer (slice_from buf s)
  = Ok (CueColor.mk (u8 buf (s + 0)) (u8 buf (s + 1)) (u8 buf (s + 2))).
Proof.
  intros Hs Hlen. unfold CueColor.fromBuffer.
  rewrite !readUInt8_inside by (rewrite blen_slice_from by lia; lia).
  cbn [bind assert]. now rewrite !u8_slice_from by lia.
Qed.

Lemma cue_parse_inside (buf : Buffer) o :
  0 <= o -> o + 14 <= blen buf ->
  CueData.parse buf o
  = Ok (CueData.mk (u8 buf o) (u32le buf (o + 2)) (u32le buf (o + 6))
          (CueColor.mk (u8 buf (o + 11 + 0)) (u8 buf (o + 11 + 1)) (u8 buf (o + 11 + 2)))).
Proof.
  intros Ho Hlen. unfold CueData.parse. all_inside.
  rewrite cue_color_inside by lia. reflexivity.
Qed.

Lemma cue_parse_Ok (buf : Buffer) o c :
  0 <= o -> CueData.parse buf o = Ok c -> o + 14 <= blen buf.
Proof.
  intros Ho H. unfold CueData.parse, CueColor.fromBuffer in H. ok_facts H.
  rewrite blen_slice_from in * by lia. lia.
Qed.

(** X9. The decoders of the data packets accept exactly the buffers that
    reach their last integer field: 26 bytes for the base Data packet, 122
    for Metrics (its declared [length()]), 547 for MetaData (one short of
    its 548), 259 for MixerData (its sixth channel; 548 declared) and 435
    for CUEData (the colour of its eighteenth cue; 436 declared). *)
Lemma data_decoders_accept (buf : Buffer) :
  (is_ok (TCNetDataPacket.read buf) = true <-> 26 <= blen buf)
  /\ (is_ok (TCNetDataPacketMetrics.read buf) = true
      <-> TCNetDataPacketMetrics.length <= blen buf)
  /\ (is_ok (TCNetDataPacketMetadata.read buf) = true
      <-> TCNetDataPacketMetadata.length - 1 <= blen buf)
  /\ (is_ok (TCNetDataPacketMixerData.read buf) = true <-> 259 <= blen buf)
  /\ (is_ok (TCNetDataPacketCueData.read buf) = true
      <-> TCNetDataPacketCueData.length - 1 <= blen buf).
Proof.
  unfold TCNetDataPacketMetrics.length, TCNetDataPacketMetadata.length,
    TCNetDataPacketCueData.length.
  repeat split.
  - unfold TCNetDataPacket.read. intros H. ok_facts H. lia.
  - intros H. unfold TCNetDataPacket.read. all_inside. reflexivity.
  - unfold TCNetDataPacketMetrics.read. intros H. ok_facts H. lia.
  - intros H. unfold TCNetDataPacketMetrics.read. all_inside. reflexivity.
  - unfold TCNetDataPacketMetadata.read. intros H. ok_facts H. lia.
  - intros H. unfold TCNetDataPacketMetadata.read. all_inside. reflexivity.
  - unfold TCNetDataPacketMixerData.read. intros H. ok_facts H.
    match goal with Hm : mapM _ _ = Ok _ |- _ => layer_facts Hm 5 end.
    unfold MixerChannelData.parse in Hy. ok_facts Hy. lia.
  - intros H. unfold TCNetDataPacketMixerData.read, TCNetDataPacketMixerData.readFlag.
    all_inside.
    erewrite mapM_map
      by (intros ? ?%elem_of_seqZ; unfold MixerChannelData.parse; all_inside;
          reflexivity).
    reflexivity.
  - unfold TCNetDataPacketCueData.read. intros H. ok_facts H.
    match goal with
    | Hm : mapM _ _ = Ok _ |- _ =>
        destruct (mapM_Ok _ _ _ Hm 17 ltac:(apply elem_of_seqZ; lia)) as [c Hc]
    end.
    apply cue_parse_Ok in Hc; lia.
  - intros H. unfold TCNetDataPacketCueData.read. all_inside.
    erewrite mapM_map
      by (intros ? ?%elem_of_seqZ; apply cue_parse_inside; lia).
    reflexivity.
Qed.

(** ** Payloads of declared size *)

Lemma blen_bytes_clamped (buf : Buffer) s d :
  0 <= s -> 0 <= d ->
  blen (bytes buf s (Z.min (s + d) (blen buf))) = Z.min d (Z.max 0 (blen buf - s)).
Proof.
  intros Hs Hd. unfold bytes, blen. rewrite length_take, length_drop. lia.
Qed.

(** X10. The File and ApplicationData decoders accept every buffer of 42
    bytes or more, whatever [dataSize] it declares. The payload they
    return is the bytes from offset 42 up to [42 + dataSize] or up to the
    end of the buffer, whichever comes first: it has [dataSize] bytes
    when the buffer holds them and the bytes that are left otherwise. *)
Lemma payload_clamped_to_buffer (buf : Buffer) :
  42 <= blen buf -> 0 <= u32le buf 26 ->
  exists f a,
    TCNetDataFilePacket.read buf = Ok f
    /\ TCNetApplicationData.read buf = Ok a
    /\ TCNetDataFilePacket.dataSize f = u32le buf 26
    /\ TCNetApplicationData.dataSize a = u32le buf 26
    /\ TCNetDataFilePacket.fileData f
       = bytes buf 42 (Z.min (42 + u32le buf 26) (blen buf))
    /\ TCNetApplicationData.data a = TCNetDataFilePacket.fileData f
    /\ blen (TCNetDataFilePacket.fileData f) = Z.min (u32le buf 26) (blen buf - 42).
Proof.
  intros Hlen Hsize.
  unfold TCNetDataFilePacket.read, TCNetApplicationData.read. all_inside.
  rewrite slice_clamped by lia.
  do 2 eexists. repeat split.
  cbn. rewrite blen_bytes_clamped by lia. lia.
Qed.

Lemma payload_clamped_to_buffer_witness :
  42 <= blen short_file_datagram /\ u32le short_file_datagram 26 = 10
  /\ exists f, TCNetDataFilePacket.read short_file_datagram = Ok f
               /\ TCNetDataFilePacket.fileData f = [1; 2; 3].
Proof.
  assert (42 <= blen short_file_datagram) as H1 by (vm_compute; discriminate).
  assert (0 <= u32le short_file_datagram 26) as H2 by (vm_compute; discriminate).
  split; [exact H1|]. split; [reflexivity|].
  destruct (payload_clamped_to_buffer short_file_datagram H1 H2)
    as (f & a & Hf & _ & _ & _ & Hdata & _).
  exists f. split; [exact Hf|]. rewrite Hdata. reflexivity.
Defined.

(** X11. The Control decoder, which the Text class inherits, accepts
    every buffer of 30 bytes or more. Its [controlPath] is the ASCII
    decoding of the bytes from offset 42 up to [42 + dataSize] or the end
    of the buffer: one code unit for each byte present, NULs and what
    follows them included, and the empty string on a buffer of 42 bytes
    or less. *)
Lemma control_path_untrimmed (buf : Buffer) :
  30 <= blen buf -> 0 <= u32le buf 26 ->
  exists p,
    TCNetControlPacket.read buf = Ok p
    /\ TCNetTextDataPacket.read buf = Ok p
    /\ TCNetControlPacket.step p = u8 buf 24
    /\ TCNetControlPacket.dataSize p = u32le buf 26
    /\ TCNetControlPacket.controlPath p
       = toString_ascii (bytes buf 42 (Z.min (42 + u32le buf 26) (blen buf)))
    /\ Z.of_nat (length (TCNetControlPacket.controlPath p))
       = Z.min (u32le buf 26) (Z.max 0 (blen buf - 42)).
Proof.
  intros Hlen Hsize.
  unfold TCNetTextDataPacket.read, TCNetControlPacket.read. all_inside.
  rewrite slice_clamped by lia.
  eexists. repeat split.
  cbn. unfold toString_ascii. rewrite length_map.
  apply blen_bytes_clamped; lia.
Qed.

Lemma control_path_untrimmed_witness :
  30 <= blen short_control_datagram /\ u32le short_control_datagram 26 = 8
  /\ exists p, TCNetControlPacket.read short_control_datagram = Ok p
               /\ TCNetControlPacket.controlPath p = [47; 97; 0; 98; 99].
Proof.
  assert (30 <= blen short_control_datagram) as H1 by (vm_compute; discriminate).
  assert (0 <= u32le short_control_datagram 26) as H2 by (vm_compute; discriminate).
  split; [exact H1|]. split; [reflexivity|].
  destruct (control_path_untrimmed short_control_datagram H1 H2)
    as (p & Hp & _ & _ & _ & Hpath & _).
  exists p. split; [exact Hp|]. rewrite Hpath. reflexivity.
Defined.

(** ** Cue points *)

(** X12. On every buffer of 435 bytes or more the CUEData decoder returns
    eighteen cues, cue [i] read at offset [47 + 22 i]: its type from the
    byte there, its in and out times from the u32 LE two and six bytes
    further, its colour from bytes 11, 12 and 13. The loop-out time is the
    u32 LE at offset 46, so it shares bytes with the first cue: byte 47 is
    both the second byte of [loopOut] and the type of cue 0, and byte 49
    is both the last byte of [loopOut] and the first byte of cue 0's in
    time. *)
Lemma cue_read_layout (buf : Buffer) :
  TCNetDataPacketCueData.length - 1 <= blen buf ->
  exists p c0,
    TCNetDataPacketCueData.read buf = Ok p
    /\ TCNetDataPacketCueData.layerID p = u8 buf 25
    /\ TCNetDataPacketCueData.loopIn p = u32le buf 42
    /\ TCNetDataPacketCueData.loopOut p = u32le buf 46
    /\ TCNetDataPacketCueData.cues p
       = map (fun i =>
                CueData.mk (u8 buf (47 + i * 22))
                  (u32le buf (47 + i * 22 + 2)) (u32le buf (47 + i * 22 + 6))
                  (CueColor.mk (u8 buf (47 + i * 22 + 11 + 0))
                     (u8 buf (47 + i * 22 + 11 + 1)) (u8 buf (47 + i * 22 + 11 + 2))))
             (seqZ 0 18)
    /\ length (TCNetDataPacketCueData.cues p) = 18%nat
    /\ TCNetDataPacketCueData.cues p !! 0%nat = Some c0
    /\ TCNetDataPacketCueData.loopOut p
       = u8 buf 46 + CueData.cueType c0 * 2 ^ 8 + u8 buf 48 * 2 ^ 16 + u8 buf 49 * 2 ^ 24
    /\ CueData.inTime c0
       = u8 buf 49 + u8 buf 50 * 2 ^ 8 + u8 buf 51 * 2 ^ 16 + u8 buf 52 * 2 ^ 24.
Proof.
  unfold TCNetDataPacketCueData.length. intros Hlen.
  unfold TCNetDataPacketCueData.read. all_inside.
  erewrite mapM_map by (intros ? ?%elem_of_seqZ; apply cue_parse_inside; lia).
  cbn [bind]. do 2 eexists.
  split; [reflexivity|]. cbn [TCNetDataPacketCueData.layerID
    TCNetDataPacketCueData.loopIn TCNetDataPacketCueData.loopOut
    TCNetDataPacketCueData.cues].
  do 4 (split; [reflexivity|]).
  split; [now rewrite length_map, length_seqZ|].
  split; [reflexivity|]. split; reflexivity.
Qed.

Lemma cue_read_layout_witness :
  TCNetDataPacketCueData.length - 1 <= blen cue_datagram
  /\ exists p c0,
       TCNetDataPacketCueData.read cue_datagram = Ok p
       /\ TCNetDataPacketCueData.cues p !! 0%nat = Some c0
       /\ TCNetDataPacketCueData.loopOut p = 67305985
       /\ CueData.cueType c0 = 2
       /\ CueData.inTime c0 = 4.
Proof.
  assert (TCNetDataPacketCueData.length - 1 <= blen cue_datagram) as H
    by (vm_compute; discriminate).
  split; [exact H|].
  destruct (cue_read_layout cue_datagram H)
    as (p & c0 & Hp & _ & _ & Hout & Hcues & _ & H0 & _ & Hin).
  exists p, c0. split; [exact Hp|]. split; [exact H0|].
  split; [rewrite Hout; reflexivity|].
  rewrite Hcues in H0. injection H0 as <-.
  split; reflexivity.
Defined.

(** ** Mixer data *)

Lemma length_bytes (buf : Buffer) s e :
  0 <= s -> s <= e -> e <= blen buf -> length (bytes buf s e) = Z.to_nat (e - s).
Proof.
  intros Hs He Hlen. unfold bytes, blen in *. rewrite length_take, length_drop. lia.
Qed.

(** X13. On every buffer of 259 bytes or more the MixerData decoder
    returns a mixer name of exactly sixteen code units, the ASCII decoding
    of bytes 29..45 with its NULs kept. Each of its ten switches is on
    exactly when its byte is 1, any other value reading as off. It returns
    six channels, channel [i] read from the fourteen bytes at offset
    [125 + 24 i], whose two cue switches follow the same rule. *)
Lemma mixer_read_layout (buf : Buffer) :
  259 <= blen buf ->
  exists p,
    TCNetDataPacketMixerData.read buf = Ok p
    /\ TCNetDataPacketMixerData.mixerName p = toString_ascii (bytes buf 29 45)
    /\ length (TCNetDataPacketMixerData.mixerName p) = 16%nat
    /\ [TCNetDataPacketMixerData.linkCueA p; TCNetDataPacketMixerData.linkCueB p;
        TCNetDataPacketMixerData.masterCueA p; TCNetDataPacketMixerData.masterCueB p;
        TCNetDataPacketMixerData.masterIsolatorOnOff p;
        TCNetDataPacketMixerData.sendFxExt1 p; TCNetDataPacketMixerData.sendFxExt2 p;
        TCNetDataPacketMixerData.sendReturn3OnOff p;
        TCNetDataPacketMixerData.beatFXOnOff p;
        TCNetDataPacketMixerData.headphonesPreEQ p]
       = map (fun offset => u8 buf offset =? 1) [67; 68; 71; 72; 74; 85; 86; 94; 100; 107]
    /\ TCNetDataPacketMixerData.channelData p
       = map (fun i =>
                let o := 125 + i * 24 in
                MixerChannelData.mk (u8 buf o) (u8 buf (o + 1)) (u8 buf (o + 2))
                  (u8 buf (o + 3)) (u8 buf (o + 4)) (u8 buf (o + 5)) (u8 buf (o + 6))
                  (u8 buf (o + 7)) (u8 buf (o + 8)) (u8 buf (o + 9)) (u8 buf (o + 10))
                  (u8 buf (o + 11) =? 1) (u8 buf (o + 12) =? 1) (u8 buf (o + 13)))
             (seqZ 0 6)
    /\ length (TCNetDataPacketMixerData.channelData p) = 6%nat.
Proof.
  intros Hlen.
  unfold TCNetDataPacketMixerData.read, TCNetDataPacketMixerData.readFlag.
  all_inside. rewrite slice_inside by lia.
  erewrite mapM_map
    by (intros ? ?%elem_of_seqZ; unfold MixerChannelData.parse; all_inside;
        reflexivity).
  cbn [bind]. eexists. split; [reflexivity|].
  cbn [TCNetDataPacketMixerData.mixerName TCNetDataPacketMixerData.channelData].
  split; [reflexivity|].
  split; [unfold toString_ascii; rewrite length_map, length_bytes by lia; reflexivity|].
  split; [reflexivity|]. split; [reflexivity|].
  now rewrite length_map, length_seqZ.
Qed.

Lemma mixer_read_layout_witness :
  259 <= blen mixer_datagram
  /\ exists p, TCNetDataPacketMixerData.read mixer_datagram = Ok p
               /\ TCNetDataPacketMixerData.mixerName p = js "DJM" ++ replicate 13 0.
Proof.
  assert (259 <= blen mixer_datagram) as H by (vm_compute; discriminate).
  split; [exact H|].
  destruct (mixer_read_layout mixer_datagram H) as (p & Hp & Hname & _).
  exists p. split; [exact Hp|]. rewrite Hname. vm_compute. reflexivity.
Defined.

(** ** Waveforms that decode *)

Lemma waveform_assert_skipped (c : bool) (d : Z) {A} (k : result A) :
  (let* _ := (if c then assert (d =? 2400) else Ok tt) in k) = k.
Proof. now destruct c. Qed.

(** X14. The waveform decoder returns a packet only for a buffer of 38
    bytes or more whose payload is empty, because it ends at or before
    offset 42 or declares a [dataSize] of 0; the packet then carries the
    four header fields and no sample. No buffer decodes to a waveform
    with samples. *)
Lemma waveform_read_ok_iff (buf : Buffer) (p : TCNetDataPacketWaveFormData.t) :
  0 <= u32le buf 26 ->
  TCNetDataPacketWaveFormData.read buf = Ok p
  <-> 38 <= blen buf
      /\ (blen buf <= 42 \/ u32le buf 26 = 0)
      /\ p = {| TCNetDataPacketWaveFormData.layerID := u8 buf 25;
                TCNetDataPacketWaveFormData.dataSize := u32le buf 26;
                TCNetDataPacketWaveFormData.totalPacket := u32le buf 30;
                TCNetDataPacketWaveFormData.packetNumber := u32le buf 34;
                TCNetDataPacketWaveFormData.waveformData := [] |}.
Proof.
  intros Hsize.
  assert (38 <= blen buf ->
          TCNetDataPacketWaveFormData.read buf
          = let waves := slice buf 42 (42 + u32le buf 26) in
            let* waveformData :=
              mapM (TCNetDataPacketWaveFormData.readSample waves)
                   (TCNetDataPacketWaveFormData.loopIndices waves) in
            Ok (TCNetDataPacketWaveFormData.mk (u8 buf 25) (u32le buf 26)
                  (u32le buf 30) (u32le buf 34) waveformData)) as Hread.
  { intros Hlen. unfold TCNetDataPacketWaveFormData.read. all_inside.
    now rewrite waveform_assert_skipped. }
  assert (blen buf <= 42 \/ u32le buf 26 = 0 -> slice buf 42 (42 + u32le buf 26) = [])
    as Hempty.
  { intros Hcase. rewrite slice_clamped by lia. apply length_zero_iff_nil.
    pose proof (blen_bytes_clamped buf 42 (u32le buf 26) ltac:(lia) Hsize) as Hb.
    unfold blen in *. lia. }
  split.
  - intros H.
    assert (38 <= blen buf) as Hlen.
    { apply (f_equal is_ok) in H. cbn [is_ok] in H.
      unfold TCNetDataPacketWaveFormData.read in H. ok_facts H. lia. }
    split; [exact Hlen|]. rewrite Hread in H by exact Hlen. cbv zeta in H.
    destruct (Z.le_gt_cases (blen buf) 42) as [Hshort|Hlong];
      [|destruct (Z.eq_dec (u32le buf 26) 0) as [Hzero|Hpos]].
    + rewrite Hempty in H by lia. cbn in H. injection H as <-. split; [lia|reflexivity].
    + rewrite Hempty in H by lia. cbn in H. injection H as <-. split; [lia|reflexivity].
    + rewrite waveform_loop_throws in H by (apply slice_nonempty; lia). discriminate.
  - intros (Hlen & Hcase & ->). rewrite Hread by exact Hlen. cbv zeta.
    rewrite Hempty by exact Hcase. reflexivity.
Qed.

Lemma waveform_read_ok_iff_witness :
  0 <= u32le empty_waveform_datagram 26
  /\ TCNetDataPacketWaveFormData.read empty_waveform_datagram
     = Ok {| TCNetDataPacketWaveFormData.layerID := 1;
             TCNetDataPacketWaveFormData.dataSize := 0;
             TCNetDataPacketWaveFormData.totalPacket := 1;
             TCNetDataPacketWaveFormData.packetNumber := 0;
             TCNetDataPacketWaveFormData.waveformData := [] |}.
Proof.
  assert (0 <= u32le empty_waveform_datagram 26) as H by (vm_compute; discriminate).
  split; [exact H|].
  apply (waveform_read_ok_iff empty_waveform_datagram _ H).
  split; [vm_compute; discriminate|]. split; [right; reflexivity|reflexivity].
Defined.

(** ** What OptIn stores *)

Lemma nth_bytes (buf : Buffer) s e k :
  0 <= s -> (k < Z.to_nat (e - s))%nat ->
  nth k (bytes buf s e) 0 = u8 buf (s + Z.of_nat k).
Proof.
  intros Hs Hk. unfold bytes, u8.
  rewrite !nth_lookup, lookup_take_lt, lookup_drop by lia.
  do 2 f_equal. lia.
Qed.

Lemma bytes_write_bytes_outside bs off (buf : Buffer) s e :
  0 <= s -> s <= e -> e <= blen buf ->
  e <= Z.of_nat off \/ Z.of_nat off + Z.of_nat (length bs) <= s ->
  bytes (write_bytes bs off buf) s e = bytes buf s e.
Proof.
  intros Hs He Hlen Hout. apply bytes_ext; [lia|bounds| |].
  - rewrite length_bytes by lia. lia.
  - intros k Hk. rewrite length_bytes in Hk by lia.
    rewrite u8_write_bytes_outside by lia. now rewrite nth_bytes by lia.
Qed.

(** X15. For an OptIn packet whose counters and names fit their widths
    and whose three version numbers are below 24, written into a buffer
    of 68 bytes or more: [write] succeeds and stores each version
    constant (64, 65, 66) at the offset its version number names, the
    last of them winning; [read] of the result returns the counters and
    the names unchanged and, as version, the bytes the buffer already
    held at offsets 64, 65 and 66. *)
Lemma optin_write_read (p : TCNetOptInPacket.t) (buf : Buffer) :
  optInWithinWidths p ->
  0 <= TCNetOptInPacket.majorVersion p < 24 ->
  0 <= TCNetOptInPacket.minorVersion p < 24 ->
  0 <= TCNetOptInPacket.bugVersion p < 24 ->
  TCNetOptInPacket.length <= blen buf ->
  exists buf',
    TCNetOptInPacket.write p buf = Done buf'
    /\ blen buf' = blen buf
    /\ u8 buf' (TCNetOptInPacket.bugVersion p) = 66
    /\ TCNetOptInPacket.read buf'
       = Ok {| TCNetOptInPacket.nodeCount := TCNetOptInPacket.nodeCount p;
               TCNetOptInPacket.nodeListenerPort := TCNetOptInPacket.nodeListenerPort p;
               TCNetOptInPacket.uptime := TCNetOptInPacket.uptime p;
               TCNetOptInPacket.vendorName := TCNetOptInPacket.vendorName p;
               TCNetOptInPacket.appName := TCNetOptInPacket.appName p;
               TCNetOptInPacket.majorVersion := u8 buf 64;
               TCNetOptInPacket.minorVersion := u8 buf 65;
               TCNetOptInPacket.bugVersion := u8 buf 66 |}.
Proof.
  unfold TCNetOptInPacket.length.
  intros (Hcount & Hport & Huptime & Hvendor & Happ) Hmajor Hminor Hbug Hlen.
  assert (isU8 64 /\ isU8 65 /\ isU8 66) as (H64 & H65 & H66)
    by (unfold isU8; lia).
  pose proof (ascii_field_roundtrip _ 16 Hvendor) as Hv.
  pose proof (ascii_field_roundtrip _ 16 Happ) as Ha.
  unfold toString_ascii in Hv, Ha.
  assert (length (map (fun c => Z.land c 255)
            (padEnd (TCNetOptInPacket.vendorName p) 16)) = 16%nat) as Hlv
    by (rewrite length_map; apply length_padEnd, Hvendor).
  assert (length (map (fun c => Z.land c 255)
            (padEnd (TCNetOptInPacket.appName p) 16)) = 16%nat) as Hla
    by (rewrite length_map; apply length_padEnd, Happ).
  unfold TCNetOptInPacket.write. repeat store.
  set (vb := map (fun c => Z.land c 255) (padEnd (TCNetOptInPacket.vendorName p) 16)) in *.
  set (ab := map (fun c => Z.land c 255) (padEnd (TCNetOptInPacket.appName p) 16)) in *.
  eexists. split; [reflexivity|]. split; [bounds|].
  split; [now rewrite u8_insert_eq by bounds|].
  unfold TCNetOptInPacket.read.
  rewrite !readUInt8_inside, !readUInt16LE_inside by bounds. cbn [bind].
  rewrite !slice_inside by bounds.
  rewrite !bytes_insert_outside by lia.
  rewrite (bytes_write_bytes ab 48 64) by bounds.
  rewrite (bytes_write_bytes_outside ab) by bounds.
  rewrite (bytes_write_bytes vb 32 48) by bounds.
  fold (toString_ascii vb) (toString_ascii ab). unfold toString_ascii.
  rewrite Hv, Ha.
  unfold u16le. load. now rewrite !le16_join.
Qed.

Lemma optin_samples_within_widths :
  optInWithinWidths optin_packet /\ optInWithinWidths optin_packet_v68.
Proof.
  unfold optInWithinWidths, isU16, asciiText. cbn.
  repeat split; try lia; repeat constructor; vm_compute; discriminate.
Qed.

Lemma optin_write_read_witness :
  exists buf',
    TCNetOptInPacket.write optin_packet (alloc 68) = Done buf'
    /\ u8 buf' 1 = 66
    /\ TCNetOptInPacket.read buf'
       = Ok {| TCNetOptInPacket.nodeCount := 1;
               TCNetOptInPacket.nodeListenerPort := 65023;
               TCNetOptInPacket.uptime := 10;
               TCNetOptInPacket.vendorName := js "PIONEER DJ CORP";
               TCNetOptInPacket.appName := js "NODE";
               TCNetOptInPacket.majorVersion := 0;
               TCNetOptInPacket.minorVersion := 0;
               TCNetOptInPacket.bugVersion := 0 |}.
Proof.
  destruct (optin_write_read optin_packet (alloc 68)
              (proj1 optin_samples_within_widths)
              ltac:(cbn; lia) ltac:(cbn; lia) ltac:(cbn; lia)
              ltac:(vm_compute; discriminate))
    as (buf' & Hw & _ & Hbug & Hr).
  exists buf'. split; [exact Hw|]. split; [exact Hbug|exact Hr].
Defined.

Lemma writeUInt8_outside_then v off (w : writer) (buf : Buffer) :
  isU8 v -> off < 0 \/ blen buf <= off ->
  (writeUInt8 v off ;; w) buf = Thrown (RangeError off) buf.
Proof.
  intros Hv Hoff. unfold andThen, writeUInt8, inRange, isU8 in *.
  destruct (Z.leb_spec 0 v); [|lia]. destruct (Z.leb_spec v 255); [|lia].
  cbn [andb negb]. now rewrite byteAt_outside by lia.
Qed.

(** X16. For an OptIn packet whose counters and names fit their widths
    and whose major version number is at or beyond the length of the
    buffer (68 or more for the 68-byte buffer of an OptIn), [write]
    throws a range error for that number used as an offset, after it has
    stored the counters and the names: the buffer it leaves decodes to
    them. *)
Lemma optin_write_throws (p : TCNetOptInPacket.t) (buf : Buffer) :
  optInWithinWidths p ->
  TCNetOptInPacket.length <= blen buf ->
  blen buf <= TCNetOptInPacket.majorVersion p ->
  exists buf' q,
    TCNetOptInPacket.write p buf
    = Thrown (RangeError (TCNetOptInPacket.majorVersion p)) buf'
    /\ TCNetOptInPacket.read buf' = Ok q
    /\ TCNetOptInPacket.nodeCount q = TCNetOptInPacket.nodeCount p
    /\ TCNetOptInPacket.nodeListenerPort q = TCNetOptInPacket.nodeListenerPort p
    /\ TCNetOptInPacket.uptime q = TCNetOptInPacket.uptime p
    /\ TCNetOptInPacket.vendorName q = TCNetOptInPacket.vendorName p
    /\ TCNetOptInPacket.appName q = TCNetOptInPacket.appName p.
Proof.
  unfold TCNetOptInPacket.length.
  intros (Hcount & Hport & Huptime & Hvendor & Happ) Hlen Hmajor.
  assert (isU8 64) as H64 by (unfold isU8; lia).
  pose proof (ascii_field_roundtrip _ 16 Hvendor) as Hv.
  pose proof (ascii_field_roundtrip _ 16 Happ) as Ha.
  unfold toString_ascii in Hv, Ha.
  assert (length (map (fun c => Z.land c 255)
            (padEnd (TCNetOptInPacket.vendorName p) 16)) = 16%nat) as Hlv
    by (rewrite length_map; apply length_padEnd, Hvendor).
  assert (length (map (fun c => Z.land c 255)
            (padEnd (TCNetOptInPacket.appName p) 16)) = 16%nat) as Hla
    by (rewrite length_map; apply length_padEnd, Happ).
  unfold TCNetOptInPacket.write. repeat store.
  rewrite writeUInt8_outside_then by first [assumption | right; bounds].
  set (vb := map (fun c => Z.land c 255) (padEnd (TCNetOptInPacket.vendorName p) 16)) in *.
  set (ab := map (fun c => Z.land c 255) (padEnd (TCNetOptInPacket.appName p) 16)) in *.
  do 2 eexists. split; [reflexivity|].
  unfold TCNetOptInPacket.read.
  rewrite !readUInt8_inside, !readUInt16LE_inside by bounds. cbn [bind].
  rewrite !slice_inside by bounds.
  rewrite (bytes_write_bytes ab 48 64) by bounds.
  rewrite (bytes_write_bytes_outside ab) by bounds.
  rewrite (bytes_write_bytes vb 32 48) by bounds.
  fold (toString_ascii vb) (toString_ascii ab). unfold toString_ascii.
  rewrite Hv, Ha.
  split; [reflexivity|]. cbn. unfold u16le. load.
  rewrite !le16_join. repeat split.
Qed.

Lemma optin_write_throws_witness :
  exists buf',
    TCNetOptInPacket.write optin_packet_v68 (alloc 68) = Thrown (RangeError 68) buf'.
Proof.
  destruct (optin_write_throws optin_packet_v68 (alloc 68)
              (proj2 optin_samples_within_widths)
              ltac:(vm_compute; discriminate) ltac:(vm_compute; discriminate))
    as (buf' & q & Hw & _).
  exists buf'. exact Hw.
Defined.

(** ** Whole datagrams *)

Lemma andThen_assoc (w1 w2 w3 : writer) (buf : Buffer) :
  ((w1 ;; w2) ;; w3) buf = (w1 ;; (w2 ;; w3)) buf.
Proof. unfold andThen. now destruct (w1 buf). Qed.

Lemma writeUInt32LE_then v off (w : writer) (buf : Buffer) :
  isU32 v -> 0 <= off -> off + 4 <= blen buf ->
  (writeUInt32LE v off ;; w) buf
  = w (<[Z.to_nat (off + 3) := v / 2 ^ 24]>
      (<[Z.to_nat (off + 2) := (v / 2 ^ 16) mod 2 ^ 8]>
      (<[Z.to_nat (off + 1) := (v / 2 ^ 8) mod 2 ^ 8]>
      (<[Z.to_nat off := v mod 2 ^ 8]> buf)))).
Proof. intros Hv Hoff Hlen. apply andThen_Done. now apply writeUInt32LE_inside. Qed.

(** The stores of two [write] methods run one after the other. *)
Ltac stores :=
  repeat first
    [ rewrite andThen_assoc
    | rewrite writeUInt32LE_then by first [assumption | bounds]
    | store ].

(** The header is read back from a buffer in which the stores of its
    [write] and of a body [write] have been made. *)
Ltac header_back h Hwidths :=
  let Hname := fresh "Hname" in let Hpad := fresh "Hpad" in
  pose proof Hwidths as (_ & _ & _ & Hname & _);
  pose proof (length_padEnd _ 8 (proj2 Hname)) as Hpad;
  unfold TCNetManagementHeader.read;
  rewrite !readUInt8_inside, !readUInt16LE_inside, readUInt32LE_inside by bounds;
  cbn [bind assert]; rewrite slice_inside by bounds;
  rewrite ?bytes_insert_outside by lia;
  rewrite bytes_write_bytes by (rewrite ?length_map, ?Hpad; bounds);
  rewrite (ascii_field_roundtrip _ 8 Hname);
  unfold u16le, u32le; load; rewrite !le16_join, le32_join;
  now destruct h.

(** The bytes stored for the node name, named, with their number. *)
Ltac name_bytes h Hn :=
  let nb := fresh "nb" in let Hnb := fresh "Hnb" in
  pose proof (length_padEnd _ 8 (proj2 Hn)) as Hnb;
  rewrite <- (length_map (fun c => Z.land c 255)) in Hnb;
  set (nb := map (fun c => Z.land c 255)
               (padEnd (TCNetManagementHeader.nodeName h) 8)) in *.

(** X17. A header within its widths and a Request packet within its
    widths, written one after the other into a buffer of 26 bytes or
    more, in either order, are both read back unchanged: neither [write]
    touches the bytes of the other. *)
Lemma request_datagram_roundtrip
    (h : TCNetManagementHeader.t) (p : TCNetRequestPacket.t) (buf : Buffer) :
  headerWithinWidths h ->
  isU8 (TCNetRequestPacket.dataType p) ->
  isU8 (TCNetRequestPacket.layer p) ->
  TCNetRequestPacket.length <= blen buf ->
  (exists buf',
      (TCNetManagementHeader.write h ;; TCNetRequestPacket.write p) buf = Done buf'
      /\ TCNetManagementHeader.read buf' = Ok h
      /\ TCNetRequestPacket.read buf' = Ok p)
  /\ (exists buf',
      (TCNetRequestPacket.write p ;; TCNetManagementHeader.write h) buf = Done buf'
      /\ TCNetManagementHeader.read buf' = Ok h
      /\ TCNetRequestPacket.read buf' = Ok p).
Proof.
  unfold TCNetRequestPacket.length. intros Hwidths Htype Hlayer Hlen.
  pose proof Hwidths as (? & ? & ? & Hn & ? & ? & ? & ?).
  assert (isU8 TCNetManagementHeader.MAJOR_VERSION)
    by (vm_compute; intuition discriminate).
  unfold TCNetManagementHeader.write, TCNetRequestPacket.write.
  split; stores; (eexists; split; [reflexivity|]);
    (split; [header_back h Hwidths|]).
  all: name_bytes h Hn; unfold TCNetRequestPacket.read;
    rewrite !readUInt8_inside by bounds; cbn [bind]; load; now destruct p.
Qed.

(** X18. A header within its widths and an OptOut packet within its
    widths, written one after the other into a buffer of 28 bytes or
    more, in either order, are both read back unchanged. *)
Lemma optout_datagram_roundtrip
    (h : TCNetManagementHeader.t) (p : TCNetOptOutPacket.t) (buf : Buffer) :
  headerWithinWidths h ->
  isU16 (TCNetOptOutPacket.nodeCount p) ->
  isU16 (TCNetOptOutPacket.nodeListenerPort p) ->
  TCNetOptOutPacket.length <= blen buf ->
  (exists buf',
      (TCNetManagementHeader.write h ;; TCNetOptOutPacket.write p) buf = Done buf'
      /\ TCNetManagementHeader.read buf' = Ok h
      /\ TCNetOptOutPacket.read buf' = Ok p)
  /\ (exists buf',
      (TCNetOptOutPacket.write p ;; TCNetManagementHeader.write h) buf = Done buf'
      /\ TCNetManagementHeader.read buf' = Ok h
      /\ TCNetOptOutPacket.read buf' = Ok p).
Proof.
  unfold TCNetOptOutPacket.length. intros Hwidths Hcount Hport Hlen.
  pose proof Hwidths as (? & ? & ? & Hn & ? & ? & ? & ?).
  assert (isU8 TCNetManagementHeader.MAJOR_VERSION)
    by (vm_compute; intuition discriminate).
  unfold TCNetManagementHeader.write, TCNetOptOutPacket.write.
  split; stores; (eexists; split; [reflexivity|]);
    (split; [header_back h Hwidths|]).
  all: name_bytes h Hn; unfold TCNetOptOutPacket.read;
    rewrite !readUInt16LE_inside by bounds; cbn [bind]; unfold u16le; load;
    rewrite !le16_join; now destruct p.
Qed.

Lemma sample_header_within_widths :
  headerWithinWidths sample_header_fields /\ headerIntegersFit long_name_header.
Proof.
  unfold headerWithinWidths, headerIntegersFit, isU8, isU16, isU32, asciiText. cbn.
  repeat split; try lia. repeat constructor; vm_compute; discriminate.
Qed.

Lemma request_datagram_roundtrip_witness :
  exists buf',
    (TCNetManagementHeader.write sample_header_fields
     ;; TCNetRequestPacket.write request_packet) (alloc 26) = Done buf'
    /\ TCNetManagementHeader.read buf' = Ok sample_header_fields
    /\ TCNetRequestPacket.read buf' = Ok request_packet.
Proof.
  exact (proj1 (request_datagram_roundtrip sample_header_fields request_packet (alloc 26)
                  (proj1 sample_header_within_widths)
                  ltac:(unfold isU8; cbn; lia) ltac:(unfold isU8; cbn; lia)
                  ltac:(vm_compute; discriminate))).
Defined.

Lemma optout_datagram_roundtrip_witness :
  exists buf',
    (TCNetManagementHeader.write sample_header_fields
     ;; TCNetOptOutPacket.write optout_packet) (alloc 28) = Done buf'
    /\ TCNetManagementHeader.read buf' = Ok sample_header_fields
    /\ TCNetOptOutPacket.read buf' = Ok optout_packet.
Proof.
  exact (proj1 (optout_datagram_roundtrip sample_header_fields optout_packet (alloc 28)
                  (proj1 sample_header_within_widths)
                  ltac:(unfold isU16; cbn; lia) ltac:(unfold isU16; cbn; lia)
                  ltac:(vm_compute; discriminate))).
Defined.

(** ** Node names longer than their field *)

Lemma u8_write_bytes_inside bs off (buf : Buffer) j :
  Z.of_nat off <= j < Z.of_nat off + Z.of_nat (length bs) -> j < blen buf ->
  u8 (write_bytes bs off buf) j = nth (Z.to_nat j - off) bs 0.
Proof.
  intros Hj Hlen. unfold u8, blen in *. apply nth_write_bytes_inside; lia.
Qed.

(** X19. [write] of a header does not reject a node name longer than the
    eight bytes of its field. When the integer fields fit their widths
    and the buffer holds [8 + n] bytes for a name of [n] code units,
    [write] succeeds; every byte from offset 24 on that the name reaches
    holds the low byte of the character stored there, so a name of more
    than sixteen characters overwrites the body; the bytes beyond the
    name are as they were. *)
Lemma header_write_long_name (h : TCNetManagementHeader.t) (buf : Buffer) :
  headerIntegersFit h ->
  24 <= blen buf ->
  8 + Z.of_nat (length (TCNetManagementHeader.nodeName h)) <= blen buf ->
  exists buf',
    TCNetManagementHeader.write h buf = Done buf'
    /\ blen buf' = blen buf
    /\ (forall i, 24 <= i < 8 + Z.of_nat (length (TCNetManagementHeader.nodeName h)) ->
          u8 buf' i
          = Z.land (nth (Z.to_nat (i - 8)) (TCNetManagementHeader.nodeName h) 0) 255)
    /\ (forall i, 24 <= i ->
          8 + Z.of_nat (length (TCNetManagementHeader.nodeName h)) <= i ->
          u8 buf' i = u8 buf i).
Proof.
  intros (Hid & Hminor & Hty & Hseq & Hnt & Hopt & Hts) Hlen Hname.
  assert (isU8 TCNetManagementHeader.MAJOR_VERSION)
    by (vm_compute; intuition discriminate).
  unfold TCNetManagementHeader.write. repeat store.
  set (name := TCNetManagementHeader.nodeName h) in *.
  assert (Z.of_nat (length (map (fun c => Z.land c 255) (padEnd name 8)))
          = Z.max 8 (Z.of_nat (length name))) as Hnb
    by (unfold padEnd; rewrite length_map, length_app, length_replicate; lia).
  assert (forall k, (k < length name)%nat ->
            nth k (map (fun c => Z.land c 255) (padEnd name 8)) 0
            = Z.land (nth k name 0) 255) as Hnth.
  { intros k Hk. change 0 with ((fun c => Z.land c 255) 0) at 1.
    rewrite map_nth. unfold padEnd. now rewrite app_nth1 by lia. }
  set (nb := map (fun c => Z.land c 255) (padEnd name 8)) in *.
  eexists. split; [reflexivity|]. split; [bounds|]. split.
  - intros i Hi. load.
    rewrite u8_write_bytes_inside by first [bounds | lia].
    rewrite Hnth by lia. do 2 f_equal. lia.
  - intros i Hi Hbeyond. load. reflexivity.
Qed.

Lemma header_write_long_name_witness :
  exists buf',
    TCNetManagementHeader.write long_name_header (alloc 26) = Done buf'
    /\ u8 buf' 24 = 81 /\ u8 buf' 25 = 82.
Proof.
  destruct (header_write_long_name long_name_header (alloc 26)
              (proj2 sample_header_within_widths)
              ltac:(vm_compute; discriminate) ltac:(vm_compute; discriminate))
    as (buf' & Hw & _ & Hspill & _).
  exists buf'. split; [exact Hw|].
  split; [rewrite Hspill by (cbn; lia)|rewrite Hspill by (cbn; lia)]; reflexivity.
Defined.

(** ** Colours as text *)

Lemma hex_component_width (v : Z) :
  0 <= v <= 255 -> length (substr (toString16 v) 0 2) = hexWidth v.
Proof.
  intros Hv.
  assert (forallb (fun v => length (substr (toString16 v) 0 2) =? hexWidth v)%nat
            (seqZ 0 256) = true) as Hall by (vm_compute; reflexivity).
  rewrite forallb_forall in Hall.
  apply Nat.eqb_eq, Hall, list_elem_of_In, elem_of_seqZ. lia.
Qed.

(** X20. [toHex] does not pad: for a colour whose components are bytes,
    as every colour decoded from a buffer is, the text has one character
    for "#" and one or two for each component, one when the component is
    below 16. It is a seven-character "#rrggbb" exactly when all three
    components are 16 or more. *)
Lemma cue_color_toHex_width (c : CueColor.t) :
  0 <= CueColor.red c <= 255 ->
  0 <= CueColor.green c <= 255 ->
  0 <= CueColor.blue c <= 255 ->
  length (CueColor.toHex c)
  = (1 + hexWidth (CueColor.red c) + hexWidth (CueColor.green c)
     + hexWidth (CueColor.blue c))%nat
  /\ (length (CueColor.toHex c) = 7%nat
      <-> 16 <= CueColor.red c /\ 16 <= CueColor.green c /\ 16 <= CueColor.blue c).
Proof.
  intros Hr Hg Hb.
  assert (length (CueColor.toHex c)
          = (1 + hexWidth (CueColor.red c) + hexWidth (CueColor.green c)
             + hexWidth (CueColor.blue c))%nat) as Hlen.
  { unfold CueColor.toHex. rewrite !length_app, !hex_component_width by assumption.
    cbn. lia. }
  split; [exact Hlen|]. rewrite Hlen. unfold hexWidth.
  destruct (Z.ltb_spec (CueColor.red c) 16), (Z.ltb_spec (CueColor.green c) 16),
    (Z.ltb_spec (CueColor.blue c) 16); lia.
Qed.

Lemma cue_color_toHex_width_witness :
  CueColor.toHex (CueColor.mk 5 10 255) = js "#5aff"
  /\ length (CueColor.toHex (CueColor.mk 5 10 255)) = 5%nat.
Proof.
  split; [vm_compute; reflexivity|].
  rewrite (proj1 (cue_color_toHex_width (CueColor.mk 5 10 255)
                    ltac:(cbn; lia) ltac:(cbn; lia) ltac:(cbn; lia))).
  reflexivity.
Defined.

(** ** Status, Time and Metrics *)

(** X21. On every buffer of the declared 300 bytes or more the Status
    decoder returns the node count and listener port from the u16 LE at
    offsets 24 and 26, eight layer sources from bytes 34..41, eight layer
    states from bytes 42..49, eight track ids from the u32 LE at offsets
    50, 54, ..., the SMPTE and auto-master modes from bytes 83 and 84, and
    eight layer names from the sixteen-byte fields at offsets 172, 188,
    ...; a name whose field is regularly padded is the field cut at its
    first NUL. *)
Lemma status_read_layout (buf : Buffer) :
  TCNetStatusPacket.length <= blen buf ->
  exists p,
    TCNetStatusPacket.read buf = Ok p
    /\ TCNetStatusPacket.nodeCount p = u16le buf 24
    /\ TCNetStatusPacket.nodeListenerPort p = u16le buf 26
    /\ TCNetStatusPacket.layerSource p = map (fun n => u8 buf (34 + n)) (seqZ 0 8)
    /\ TCNetStatusPacket.layerStatus p = map (fun n => u8 buf (42 + n)) (seqZ 0 8)
    /\ TCNetStatusPacket.trackID p = map (fun n => u32le buf (50 + n * 4)) (seqZ 0 8)
    /\ TCNetStatusPacket.smpteMode p = u8 buf 83
    /\ TCNetStatusPacket.autoMasterMode p = u8 buf 84
    /\ length (TCNetStatusPacket.layerName p) = 8%nat
    /\ (forall n : nat,
          (n < 8)%nat ->
          let field :=
            toString_ascii (bytes buf (172 + Z.of_nat n * 16) (172 + (Z.of_nat n + 1) * 16)) in
          regularPadding field ->
          TCNetStatusPacket.layerName p !! n = Some (untilNul field)).
Proof.
  unfold TCNetStatusPacket.length. intros Hlen.
  unfold TCNetStatusPacket.read. all_inside.
  layers_inside (fun n => u8 buf (34 + n)). cbn [bind].
  layers_inside (fun n => u8 buf (42 + n)). cbn [bind].
  layers_inside (fun n => u32le buf (50 + n * 4)). all_inside.
  eexists. split; [reflexivity|]. cbn [TCNetStatusPacket.nodeCount
    TCNetStatusPacket.nodeListenerPort TCNetStatusPacket.layerSource
    TCNetStatusPacket.layerStatus TCNetStatusPacket.trackID
    TCNetStatusPacket.smpteMode TCNetStatusPacket.autoMasterMode
    TCNetStatusPacket.layerName].
  do 7 (split; [reflexivity|]).
  split; [now rewrite length_map, length_seqZ|].
  intros n Hn Hreg.
  rewrite list_lookup_fmap, lookup_seqZ_lt by lia. cbn [fmap option_fmap option_map].
  rewrite Z.add_0_l, slice_inside by lia.
  now rewrite replace_nul_tail_regular.
Qed.

Lemma status_read_layout_witness :
  exists p,
    TCNetStatusPacket.read status_datagram = Ok p
    /\ TCNetStatusPacket.layerSource p !! 0%nat = Some 1
    /\ TCNetStatusPacket.layerStatus p !! 0%nat = Some 3
    /\ TCNetStatusPacket.trackID p !! 0%nat = Some 258
    /\ TCNetStatusPacket.layerName p !! 0%nat = Some (js "DeckA").
Proof.
  destruct (status_read_layout status_datagram ltac:(vm_compute; discriminate))
    as (p & Hp & _ & _ & Hsrc & Hst & Hid & _ & _ & _ & Hname).
  exists p. split; [exact Hp|].
  rewrite Hsrc, Hst, Hid. do 3 (split; [reflexivity|]).
  rewrite (Hname 0%nat ltac:(lia)); [reflexivity|].
  unfold regularPadding. vm_compute (fromNul _). repeat constructor.
Defined.

(** X22. On every buffer of the declared 154 bytes or more the Time
    decoder returns, for each of the eight layers [n], the current and
    total times from the u32 LE at offsets [24 + 4 n] and [56 + 4 n], the
    beat marker and state from bytes [88 + n] and [96 + n], and a time
    code from the six bytes at offset [106 + 6 n] (mode, state, hours,
    minutes, seconds, frames); the general SMPTE mode is byte 105. *)
Lemma time_read_layout (buf : Buffer) :
  TCNetTimePacket.length <= blen buf ->
  TCNetTimePacket.read buf
  = Ok {| TCNetTimePacket.layerCurrentTime :=
            map (fun n => u32le buf (24 + n * 4)) (seqZ 0 8);
          TCNetTimePacket.layerTotalTime :=
            map (fun n => u32le buf (56 + n * 4)) (seqZ 0 8);
          TCNetTimePacket.layerBeatmarker := map (fun n => u8 buf (88 + n)) (seqZ 0 8);
          TCNetTimePacket.layerState := map (fun n => u8 buf (96 + n)) (seqZ 0 8);
          TCNetTimePacket.generalSMPTEMode := u8 buf 105;
          TCNetTimePacket.layerTimecode :=
            map (fun n =>
                   let o := 106 + n * 6 in
                   TCNetTimecode.mk (u8 buf (o + 0)) (u8 buf (o + 1)) (u8 buf (o + 2))
                     (u8 buf (o + 3)) (u8 buf (o + 4)) (u8 buf (o + 5)))
                (seqZ 0 8) |}.
Proof.
  unfold TCNetTimePacket.length. intros Hlen. unfold TCNetTimePacket.read.
  layers_inside (fun n =>
    TCNetTimePacket.mkLayer (u32le buf (24 + n * 4)) (u32le buf (56 + n * 4))
      (u8 buf (88 + n)) (u8 buf (96 + n))
      (TCNetTimecode.mk (u8 buf (106 + n * 6 + 0)) (u8 buf (106 + n * 6 + 1))
         (u8 buf (106 + n * 6 + 2)) (u8 buf (106 + n * 6 + 3))
         (u8 buf (106 + n * 6 + 4)) (u8 buf (106 + n * 6 + 5)))).
  all_inside. now rewrite !map_map.
Qed.

Lemma time_read_layout_witness :
  exists p,
    TCNetTimePacket.read time_datagram = Ok p
    /\ TCNetTimePacket.layerCurrentTime p !! 0%nat = Some 1000
    /\ TCNetTimePacket.layerTotalTime p !! 0%nat = Some 65536
    /\ TCNetTimePacket.layerState p !! 0%nat = Some 3
    /\ TCNetTimePacket.generalSMPTEMode p = 25
    /\ TCNetTimePacket.layerTimecode p !! 0%nat = Some (TCNetTimecode.mk 25 1 1 2 3 4).
Proof.
  eexists. split.
  - exact (time_read_layout time_datagram ltac:(vm_compute; discriminate)).
  - repeat split.
Defined.

(** X23. On every buffer of the declared 122 bytes or more the Metrics
    decoder returns the state, sync master and beat marker from bytes 27,
    29 and 31, the track length, position and speed from the u32 LE at
    offsets 32, 36 and 40, the beat number from the u32 LE at offset 57,
    the BPM from the u32 LE at offset 112, the pitch bend from the u16 LE
    at offset 116 and the track id from the u32 LE at offset 118. *)
Lemma metrics_read_layout (buf : Buffer) :
  TCNetDataPacketMetrics.length <= blen buf ->
  TCNetDataPacketMetrics.read buf
  = Ok {| TCNetDataPacketMetrics.state := u8 buf 27;
          TCNetDataPacketMetrics.syncMaster := u8 buf 29;
          TCNetDataPacketMetrics.beatMarker := u8 buf 31;
          TCNetDataPacketMetrics.trackLength := u32le buf 32;
          TCNetDataPacketMetrics.currentPosition := u32le buf 36;
          TCNetDataPacketMetrics.speed := u32le buf 40;
          TCNetDataPacketMetrics.beatNumber := u32le buf 57;
          TCNetDataPacketMetrics.bpm := u32le buf 112;
          TCNetDataPacketMetrics.pitchBend := u16le buf 116;
          TCNetDataPacketMetrics.trackID := u32le buf 118 |}.
Proof.
  unfold TCNetDataPacketMetrics.length. intros Hlen.
  unfold TCNetDataPacketMetrics.read. all_inside. reflexivity.
Qed.

Lemma metrics_read_layout_witness :
  TCNetDataPacketMetrics.read metrics_datagram
  = Ok {| TCNetDataPacketMetrics.state := 3;
          TCNetDataPacketMetrics.syncMaster := 1;
          TCNetDataPacketMetrics.beatMarker := 4;
          TCNetDataPacketMetrics.trackLength := 65536;
          TCNetDataPacketMetrics.currentPosition := 1000;
          TCNetDataPacketMetrics.speed := 32768;
          TCNetDataPacketMetrics.beatNumber := 9;
          TCNetDataPacketMetrics.bpm := 12800;
          TCNetDataPacketMetrics.pitchBend := 100;
          TCNetDataPacketMetrics.trackID := 258 |}.
Proof.
  rewrite (metrics_read_layout metrics_datagram ltac:(vm_compute; discriminate)).
  reflexivity.
Defined.
